(** * Chronos metrics helpers: a shallow embedding of
    [examples/gRPC/reverse_proxy/bookClient.js]

    The file embeds the helpers of the Chronos tracker ([validateInput],
    [addNotifications], [getMetricsURI], [testMetricsQuery],
    [kafkaMetricsQuery], [extractWord], [promMetricsQuery], [parseProm])
    together with the fragment of JavaScript they rely on:
    decoded-JSON values, IEEE-754 binary64 numbers, the coercions
    [ToNumber], [ToString] and [ToBoolean], property reads, exceptions,
    the clock and the error console.

    Conventions.
    - A JavaScript string is a [string]; every [ascii] stands for one
      UTF-16 code unit in the range 0..255.
    - A JavaScript number is a [spec_float] at precision 53 and maximal
      exponent 1024, the Standard Library's model of binary64.
    - Statements that can throw return a [result]; functions that read the
      clock or write to the console thread a [World]. *)

From Stdlib Require Import ZArith List Bool Ascii String DecimalString Lia.
From Stdlib Require Import Floats.SpecFloat.
From stdpp Require Import base decidable countable strings gmap.

Import ListNotations.
Set Warnings "-register-all".
Local Open Scope string_scope.
Local Open Scope Z_scope.

(** ** Exceptions *)

Inductive exn : Type :=
| TypeError                 (* thrown by the language itself *)
| Error (message : string)  (* [throw new Error(message)] *)
| Rejected.                 (* a rejected request promise *)

Inductive result (A : Type) : Type :=
| Ok (a : A)
| Throw (e : exn).
Arguments Ok {A} a.
Arguments Throw {A} e.

Definition rbind {A B : Type} (r : result A) (k : A -> result B) : result B :=
  match r with
  | Ok a => k a
  | Throw e => Throw e
  end.

Notation "'let?' x ':=' r 'in' k" := (rbind r (fun x => k))
  (at level 10, x pattern, r at level 100, k at level 200).

(** ** Numbers: IEEE-754 binary64 *)

Module Num.

Definition number : Type := spec_float.

Definition prec : Z := 53.
Definition emax : Z := 1024.

Definition NaN : number := S754_nan.
Definition zero : number := S754_zero false.
Definition one : number := S754_finite false 4503599627370496 (-52).
Definition Infinity (neg : bool) : number := S754_infinity neg.

(** The global [isNaN] restricted to numbers. *)
Definition is_NaN (n : number) : bool :=
  match n with
  | S754_nan => true
  | _ => false
  end.

(** The number nearest to [(-1)^neg * m * 10^e10] (ties to even), for
    [0 <= m].  A non-negative power of ten makes the value an integer, which
    [binary_normalize] rounds; a negative one makes it a quotient of two
    integers, which [SFdiv] rounds from the exact quotient and remainder. *)
Definition of_decimal (neg : bool) (m e10 : Z) : number :=
  if m =? 0 then S754_zero neg
  else if 0 <=? e10 then
    binary_normalize prec emax (cond_Zopp neg (m * 10 ^ e10)) 0 neg
  else
    SFdiv prec emax (S754_finite neg (Z.to_pos m) 0)
                    (S754_finite false (Z.to_pos (10 ^ (- e10))) 0).

(** *** Character classes of the numeric grammar *)

Definition code (c : ascii) : Z := Z.of_N (N_of_ascii c).

(** [StrWhiteSpaceChar] among the code units 0..255: TAB, LF, VT, FF, CR,
    SP and NBSP. *)
Definition is_white_space (c : ascii) : bool :=
  let n := code c in
  ((9 <=? n) && (n <=? 13)) || (n =? 32) || (n =? 160).

(** Value of [c] as a digit in base [radix], for radix 2, 8, 10 or 16. *)
Definition digit_value (radix : Z) (c : ascii) : option Z :=
  let n := code c in
  let d :=
    if (48 <=? n) && (n <=? 57) then Some (n - 48)
    else if (97 <=? n) && (n <=? 102) then Some (n - 87)
    else if (65 <=? n) && (n <=? 70) then Some (n - 55)
    else None in
  match d with
  | Some v => if v <? radix then Some v else None
  | None => None
  end.

(** Longest prefix of base-[radix] digits: its value read as a numeral
    after [acc], the number of digits consumed, and the rest. *)
Fixpoint read_digits (radix : Z) (s : string) (acc : Z) (count : Z)
  : Z * Z * string :=
  match s with
  | String c rest =>
      match digit_value radix c with
      | Some d => read_digits radix rest (acc * radix + d) (count + 1)
      | None => (acc, count, s)
      end
  | EmptyString => (acc, count, s)
  end.

Fixpoint trim_start (s : string) : string :=
  match s with
  | String c rest => if is_white_space c then trim_start rest else s
  | EmptyString => s
  end.

Fixpoint trim_end (s : string) : string :=
  match s with
  | String c rest =>
      match trim_end rest with
      | EmptyString => if is_white_space c then EmptyString else String c EmptyString
      | rest' => String c rest'
      end
  | EmptyString => s
  end.

Definition trim (s : string) : string := trim_end (trim_start s).

(** *** [StringToNumber] *)

(** [NonDecimalIntegerLiteral]: [0x], [0o] or [0b] (either case) followed by
    at least one digit of that radix and nothing else. *)
Definition parse_non_decimal (s : string) : option number :=
  match s with
  | String "0" (String p rest) =>
      let radix :=
        if (Ascii.eqb p "x" || Ascii.eqb p "X")%bool then Some 16
        else if (Ascii.eqb p "o" || Ascii.eqb p "O")%bool then Some 8
        else if (Ascii.eqb p "b" || Ascii.eqb p "B")%bool then Some 2
        else None in
      match radix with
      | Some r =>
          match read_digits r rest 0 0 with
          | (v, n, EmptyString) =>
              if 0 <? n then Some (binary_normalize prec emax v 0 false) else None
          | _ => None
          end
      | None => None
      end
  | _ => None
  end.

(** [ExponentPart] (optional): [e] or [E], an optional sign and at least one
    decimal digit, up to the end of the string. *)
Definition parse_exponent (s : string) : option Z :=
  match s with
  | EmptyString => Some 0
  | String c rest =>
      if (Ascii.eqb c "e" || Ascii.eqb c "E")%bool then
        let '(neg, digits) :=
          match rest with
          | String "-" r => (true, r)
          | String "+" r => (false, r)
          | _ => (false, rest)
          end in
        match read_digits 10 digits 0 0 with
        | (v, n, EmptyString) =>
            if 0 <? n then Some (cond_Zopp neg v) else None
        | _ => None
        end
      else None
  end.

(** [StrUnsignedDecimalLiteral] other than [Infinity]: digits with an
    optional fraction, or a fraction alone, then the optional exponent. *)
Definition parse_unsigned_decimal (neg : bool) (s : string) : option number :=
  let '(int_value, int_count, after_int) := read_digits 10 s 0 0 in
  let '(mantissa, frac_count, after_frac) :=
    match after_int with
    | String "." r => read_digits 10 r int_value 0
    | _ => (int_value, 0, after_int)
    end in
  if 0 <? int_count + frac_count then
    match parse_exponent after_frac with
    | Some e => Some (of_decimal neg mantissa (e - frac_count))
    | None => None
    end
  else None.

(** [StrDecimalLiteral]: an optional sign, then [Infinity] or an unsigned
    decimal literal. *)
Definition parse_decimal (s : string) : option number :=
  let '(neg, body) :=
    match s with
    | String "-" r => (true, r)
    | String "+" r => (false, r)
    | _ => (false, s)
    end in
  if String.eqb body "Infinity" then Some (Infinity neg)
  else parse_unsigned_decimal neg body.

(** [Number(s)] for a string [s]. *)
Definition StringToNumber (s : string) : number :=
  let t := trim s in
  match t with
  | EmptyString => zero
  | _ =>
      match parse_non_decimal t with
      | Some n => n
      | None =>
          match parse_decimal t with
          | Some n => n
          | None => NaN
          end
      end
  end.

(** *** [Number::toString] (radix 10) *)

Definition digits_of_Z (z : Z) : string :=
  NilZero.string_of_uint (N.to_uint (Z.to_N z)).

Fixpoint zeros (n : nat) : string :=
  match n with
  | O => EmptyString
  | S n' => String "0" (zeros n')
  end.

(** A positive finite number [m * 2^e] as the fraction [(num, den)]. *)
Definition fraction (m : positive) (e : Z) : Z * Z :=
  if 0 <=? e then (Z.pos m * 2 ^ e, 1) else (Z.pos m, 2 ^ (- e)).

(** [num / den < 10^n]. *)
Definition below_pow10 (num den n : Z) : bool :=
  if 0 <=? n then num <? 10 ^ n * den else num * 10 ^ (- n) <? den.

(** The least [n], searched upwards from [n], with [num / den < 10^n]. *)
Fixpoint decimal_exponent (fuel : nat) (num den n : Z) : Z :=
  match fuel with
  | O => n
  | S fuel' =>
      if below_pow10 num den n then n
      else decimal_exponent fuel' num den (n + 1)
  end.

(** [floor ((num / den) / 10^scale)]. *)
Definition scaled_floor (num den scale : Z) : Z :=
  if 0 <=? scale then num / (den * 10 ^ scale)
  else (num * 10 ^ (- scale)) / den.

(** Does the decimal [c * 10^scale] denote the number [x]? *)
Definition denotes (x : number) (c scale : Z) : bool :=
  SFeqb (of_decimal false c scale) x.

(** Of two decimals [c * 10^scale] and [(c+1) * 10^scale] around
    [num / den], is the lower one the closer (the even one on a tie)? *)
Definition lower_is_closer (num den c scale : Z) : bool :=
  let twice := 2 * num in
  let '(l, r) :=
    if 0 <=? scale then (twice, (2 * c + 1) * 10 ^ scale * den)
    else (twice * 10 ^ (- scale), (2 * c + 1) * den) in
  (l <? r) || ((l =? r) && Z.even c).

(** The shortest digit string [s] (with [k] digits, [k] from [k] upwards)
    and exponent [n] such that [s * 10^(n-k)] denotes [x]. *)
Fixpoint shortest_digits (fuel : nat) (x : number) (num den n0 k : Z)
  : Z * Z * Z :=
  let scale := n0 - k in
  let c := scaled_floor num den scale in
  let pick s := if s =? 10 ^ k then (1, 1, n0 + 1) else (s, k, n0) in
  match fuel with
  | O => (c, k, n0)
  | S fuel' =>
      match denotes x c scale, denotes x (c + 1) scale with
      | true, true =>
          if lower_is_closer num den c scale then pick c else pick (c + 1)
      | true, false => pick c
      | false, true => pick (c + 1)
      | false, false => shortest_digits fuel' x num den n0 (k + 1)
      end
  end.

Definition positive_to_string (m : positive) (e : Z) : string :=
  let '(num, den) := fraction m e in
  let n0 := decimal_exponent 640 num den (-324) in
  let '(s, k, n) := shortest_digits 17 (S754_finite false m e) num den n0 1 in
  let digits := digits_of_Z s in
  if (k <=? n) && (n <=? 21) then
    digits ++ zeros (Z.to_nat (n - k))
  else if (0 <? n) && (n <=? 21) then
    substring 0 (Z.to_nat n) digits ++ "." ++
    substring (Z.to_nat n) (Z.to_nat (k - n)) digits
  else if (-6 <? n) && (n <=? 0) then
    "0." ++ zeros (Z.to_nat (- n)) ++ digits
  else
    let e10 := n - 1 in
    let exponent :=
      (if e10 <? 0 then "e-" else "e+") ++ digits_of_Z (Z.abs e10) in
    if k =? 1 then digits ++ exponent
    else substring 0 1 digits ++ "." ++
         substring 1 (Z.to_nat (k - 1)) digits ++ exponent.

Definition Number_toString (x : number) : string :=
  match x with
  | S754_nan => "NaN"
  | S754_zero _ => "0"
  | S754_infinity neg => if neg then "-Infinity" else "Infinity"
  | S754_finite neg m e =>
      (if neg then "-" else "") ++ positive_to_string m e
  end.

End Num.

(** ** Decoded-JSON values and the coercions the helpers apply to them *)

Module JS.

Import Num.

(** What a response body or a configuration object can hold.  The fields of
    an object are kept in lookup order: the first binding of a key is the
    one a property read sees. *)
Inductive jsval : Type :=
| JUndefined
| JNull
| JBool (b : bool)
| JNum (n : number)
| JStr (s : string)
| JArr (elements : list jsval)
| JObj (fields : list (string * jsval)).

Fixpoint lookup_field (k : string) (fields : list (string * jsval))
  : option jsval :=
  match fields with
  | [] => None
  | (k', v) :: rest => if String.eqb k k' then Some v else lookup_field k rest
  end.

(** [v === s] for a string literal [s]. *)
Definition strict_eq_string (v : jsval) (s : string) : bool :=
  match v with
  | JStr t => String.eqb t s
  | _ => false
  end.

(** [ToBoolean]. *)
Definition ToBoolean (v : jsval) : bool :=
  match v with
  | JUndefined | JNull => false
  | JBool b => b
  | JNum (S754_zero _) | JNum S754_nan => false
  | JNum _ => true
  | JStr EmptyString => false
  | JStr _ => true
  | JArr _ | JObj _ => true
  end.

(** [ToString], through [ToPrimitive] for arrays and objects.  An array is
    joined with commas, [undefined] and [null] elements giving the empty
    string.  A plain object inherits [Object.prototype.toString]; a decoded
    object that has a field named [toString] shadows it with a value that
    cannot be called, and the conversion throws. *)
Fixpoint ToString (v : jsval) : result string :=
  match v with
  | JUndefined => Ok "undefined"
  | JNull => Ok "null"
  | JBool b => Ok (if b then "true" else "false")
  | JNum n => Ok (Number_toString n)
  | JStr s => Ok s
  | JArr elements =>
      (fix join (l : list jsval) : result string :=
         let element x :=
           match x with
           | JUndefined | JNull => Ok ""
           | _ => ToString x
           end in
         match l with
         | [] => Ok ""
         | [x] => element x
         | x :: rest =>
             let? a := element x in
             let? b := join rest in
             Ok (a ++ "," ++ b)
         end) elements
  | JObj fields =>
      match lookup_field "toString" fields with
      | Some _ => Throw TypeError
      | None => Ok "[object Object]"
      end
  end.

(** [ToNumber]. *)
Definition ToNumber (v : jsval) : result number :=
  match v with
  | JUndefined => Ok NaN
  | JNull => Ok zero
  | JBool b => Ok (if b then one else zero)
  | JNum n => Ok n
  | JStr s => Ok (StringToNumber s)
  | JArr _ | JObj _ => let? s := ToString v in Ok (StringToNumber s)
  end.

(** The global [isNaN(v)]. *)
Definition isNaN (v : jsval) : result bool :=
  let? n := ToNumber v in Ok (is_NaN n).

(** [v.k] for the property names the helpers read ([metric], [job],
    [instance], [__name__], [value], [name], [mode], [jmxuri],
    [promService], [promPort], [data], [result]): no prototype defines any
    of them, so only an object's own fields can answer. *)
Definition Get (v : jsval) (k : string) : result jsval :=
  match v with
  | JUndefined | JNull => Throw TypeError
  | JObj fields =>
      Ok (match lookup_field k fields with Some x => x | None => JUndefined end)
  | JBool _ | JNum _ | JStr _ | JArr _ => Ok JUndefined
  end.

(** [v[i]] for an index [i]. *)
Definition GetIndex (v : jsval) (i : nat) : result jsval :=
  match v with
  | JUndefined | JNull => Throw TypeError
  | JArr elements => Ok (nth i elements JUndefined)
  | JStr s =>
      Ok (match String.get i s with
          | Some c => JStr (String c EmptyString)
          | None => JUndefined
          end)
  | JObj fields =>
      Ok (match lookup_field (digits_of_Z (Z.of_nat i)) fields with
          | Some x => x
          | None => JUndefined
          end)
  | JBool _ | JNum _ => Ok JUndefined
  end.

(** [v.constructor.name].  Primitives and arrays answer with their built-in
    constructor; an object answers with [Object] unless it has a field
    named [constructor], whose [name] is then read. *)
Definition constructor_name (v : jsval) : result jsval :=
  match v with
  | JUndefined | JNull => Throw TypeError
  | JBool _ => Ok (JStr "Boolean")
  | JNum _ => Ok (JStr "Number")
  | JStr _ => Ok (JStr "String")
  | JArr _ => Ok (JStr "Array")
  | JObj fields =>
      match lookup_field "constructor" fields with
      | Some c => Get c "name"
      | None => Ok (JStr "Object")
      end
  end.

(** What [for (const x of v)] visits: the elements of an array, the
    characters of a string; anything else is not iterable. *)
Definition iterate (v : jsval) : result (list jsval) :=
  match v with
  | JArr elements => Ok elements
  | JStr s =>
      Ok (map (fun c => JStr (String c EmptyString)) (list_ascii_of_string s))
  | _ => Throw TypeError
  end.

(** *** String methods *)

Definition newline : ascii := ascii_of_nat 10.

(** [s.split('\n')]. *)
Fixpoint split_newline (s : string) : list string :=
  match s with
  | EmptyString => [EmptyString]
  | String c rest =>
      if Ascii.eqb c newline then EmptyString :: split_newline rest
      else
        match split_newline rest with
        | first :: others => String c first :: others
        | [] => [String c EmptyString]
        end
  end.

(** [s.lastIndexOf(c)], scanning from index [i] with [found] the last
    position seen so far. *)
Fixpoint lastIndexOf_from (c : ascii) (s : string) (i found : Z) : Z :=
  match s with
  | EmptyString => found
  | String d rest =>
      lastIndexOf_from c rest (i + 1) (if Ascii.eqb d c then i else found)
  end.

Definition lastIndexOf (s : string) (c : ascii) : Z :=
  lastIndexOf_from c s 0 (-1).

Definition strlen (s : string) : Z := Z.of_nat (String.length s).

(** A relative index, as [slice] resolves it against the length. *)
Definition resolve_index (len i : Z) : Z :=
  if i <? 0 then Z.max (len + i) 0 else Z.min i len.

(** [s.slice(start, end)]. *)
Definition slice (s : string) (start stop : Z) : string :=
  let len := strlen s in
  let from := resolve_index len start in
  let to := resolve_index len stop in
  substring (Z.to_nat from) (Z.to_nat (Z.max (to - from) 0)) s.

(** [s.slice(start)]. *)
Definition slice_from (s : string) (start : Z) : string :=
  slice s start (strlen s).

(** [encodeURIComponent] on code units below 256: unreserved characters are
    kept, the others are written as the percent-escaped bytes of their
    UTF-8 encoding. *)
Definition hex_digit (d : Z) : ascii :=
  ascii_of_nat (Z.to_nat (if d <? 10 then 48 + d else 55 + d)).

Definition percent (byte : Z) : string :=
  String "%" (String (hex_digit (byte / 16)) (String (hex_digit (byte mod 16)) EmptyString)).

Definition is_unreserved (c : ascii) : bool :=
  let n := code c in
  ((48 <=? n) && (n <=? 57)) || ((65 <=? n) && (n <=? 90)) ||
  ((97 <=? n) && (n <=? 122)) ||
  existsb (Ascii.eqb c) (list_ascii_of_string "-_.!~*'()").

Fixpoint encodeURIComponent (s : string) : string :=
  match s with
  | EmptyString => EmptyString
  | String c rest =>
      (if is_unreserved c then String c EmptyString
       else if code c <? 128 then percent (code c)
       else percent (192 + code c / 64) ++ percent (128 + code c mod 64))
      ++ encodeURIComponent rest
  end.

(** *** Operators and object updates *)

(** [typeof v]. *)
Definition typeof (v : jsval) : string :=
  match v with
  | JUndefined => "undefined"
  | JNull => "object"
  | JBool _ => "boolean"
  | JNum _ => "number"
  | JStr _ => "string"
  | JArr _ | JObj _ => "object"
  end.

(** [l.includes(v)] for an array [l] of string literals. *)
Definition includes (l : list string) (v : jsval) : bool :=
  existsb (strict_eq_string v) l.

(** [v === n] for a number [n]: no other type is equal to a number, NaN is
    equal to nothing and the two zeros are equal. *)
Definition strict_eq_number (v : jsval) (n : number) : bool :=
  match v with
  | JNum m => SFeqb m n
  | _ => false
  end.

(** The fields of an object after [o.k = v]: the binding of [k] is replaced
    where it stands, or added at the end. *)
Fixpoint set_field (k : string) (v : jsval) (fields : list (string * jsval))
  : list (string * jsval) :=
  match fields with
  | [] => [(k, v)]
  | (k', x) :: rest =>
      if String.eqb k k' then (k', v) :: rest
      else (k', x) :: set_field k v rest
  end.

(** The object [o] after [o.k = v].  An assignment to a property of a
    primitive is ignored (the file is not in strict mode); the helpers never
    assign to an array. *)
Definition SetProp (o : jsval) (k : string) (v : jsval) : jsval :=
  match o with
  | JObj fields => JObj (set_field k v fields)
  | _ => o
  end.

End JS.

(** ** The helpers *)

Module helpers.

Import Num JS.

(** One normalised sample, [{ metric, value, time, category }]. *)
Record MetricRecord : Type := {
  metric : string;
  value : jsval;
  time : Z;
  category : string
}.

(** One call of [console.error]. *)
Inductive diag : Type :=
| InvalidMetric (element : string)
    (* 'The following metric is invalid and was not saved to the database:' *)
| FetchError (mode URI : jsval) (error : exn).
    (* mode | 'Error fetching from URI:' URI error *)

(** The surroundings of a call: the clock ([clock n] is what the [n]-th
    call of [Date.now()] returns, [ticks] counts the calls made so far), the
    lines written by [console.error], and the outcome of [axios.get] for
    each address. *)
Record World : Type := {
  clock : nat -> Z;
  ticks : nat;
  console : list diag;
  axios_get : jsval -> result jsval
}.

Definition Date_now (w : World) : Z * World :=
  (clock w (ticks w),
   {| clock := clock w; ticks := S (ticks w);
      console := console w; axios_get := axios_get w |}).

Definition console_error (d : diag) (w : World) : World :=
  {| clock := clock w; ticks := ticks w;
     console := (console w ++ [d])%list; axios_get := axios_get w |}.

(** What an [async] query settles with: the array of records, or the
    [undefined] that [return console.error(...)] yields. *)
Inductive returned : Type :=
| Batch (records : list MetricRecord)
| Undefined.

(** *** [getMetricsURI] *)

Definition getMetricsURI (config : jsval) : result jsval :=
  let? mode := Get config "mode" in
  if strict_eq_string mode "kafka" then Get config "jmxuri"
  else if strict_eq_string mode "kubernetes" then
    let? promService := Get config "promService" in
    let? service := ToString promService in
    let? promPort := Get config "promPort" in
    let? port := ToString promPort in
    Ok (JStr ("http://" ++ service ++ ":" ++ port ++ "/api/v1/query?query="))
  else Throw (Error "Unrecognized mode").

(** *** [extractWord] *)

(** The second half of the loop body: the line is cut at its last space and
    the right part is read as a number. *)
Definition extractWord_parse (time : Z)
    (st : list MetricRecord * World) (element : string)
  : list MetricRecord * World :=
  let '(res, w) := st in
  let lastSpace := lastIndexOf element " " in
  let metric := slice element 0 lastSpace in
  let value := StringToNumber (slice_from element (lastSpace + 1)) in
  if negb (is_NaN value) then
    ((res ++ [{| metric := metric; value := JNum value;
                 time := time; category := "Event" |}])%list, w)
  else (res, console_error (InvalidMetric element) w).

(** The body of the loop over the lines, on the records pushed so far:
    the two [continue] tests, then the parse. *)
Definition extractWord_body (mode : jsval) (time : Z)
    (st : list MetricRecord * World) (element : string)
  : list MetricRecord * World :=
  if match element with
     | EmptyString => true
     | String c _ => Ascii.eqb c "#"
     end
  then st
  else if strict_eq_string mode "kafka" &&
          (String.eqb (substring 0 3 element) "jmx" ||
           String.eqb (substring 0 4 element) "'jmx")
  then st
  else extractWord_parse time st element.

Definition extractWord (mode text : jsval) (w : World)
  : result (list MetricRecord) * World :=
  match text with
  | JStr s =>
      let arr := split_newline s in
      let '(time, w1) := Date_now w in
      let '(res, w2) := fold_left (extractWord_body mode time) arr ([], w1) in
      (Ok res, w2)
  | _ => (Throw TypeError, w)   (* [text.split] is not a function *)
  end.

(** *** [parseProm] *)

(** The body of the loop over the entries, on the records pushed and the
    names seen so far. *)
Definition parseProm_body (time : Z)
    (st : list MetricRecord * gset string) (info : jsval)
  : result (list MetricRecord * gset string) :=
  let '(res, names) := st in
  let? labels := Get info "metric" in
  let? job := Get labels "job" in
  if negb (ToBoolean job) then Ok st
  else
    let? job_text := ToString job in
    let? instance := Get labels "instance" in
    let? instance_text := ToString instance in
    let? name_label := Get labels "__name__" in
    let? name_text := ToString name_label in
    let name := job_text ++ "/" ++ instance_text ++ "/" ++ name_text in
    if bool_decide (name ∈ names) then Ok st
    else
      let names := names ∪ {[ name ]} in
      let? value := Get info "value" in
      let? ctor := constructor_name value in
      let? value :=
        if strict_eq_string ctor "Array" then GetIndex value 1 else Ok value in
      let? nan := isNaN value in
      if nan || strict_eq_string value "NaN" then Ok (res, names)
      else
        Ok ((res ++ [{| metric := name; value := value;
                        time := time; category := "Event" |}])%list, names).

Fixpoint parseProm_loop (time : Z) (entries : list jsval)
    (st : list MetricRecord * gset string)
  : result (list MetricRecord * gset string) :=
  match entries with
  | [] => Ok st
  | info :: rest =>
      let? st' := parseProm_body time st info in
      parseProm_loop time rest st'
  end.

Definition parseProm (data : jsval) (w : World)
  : result (list MetricRecord) * World :=
  let '(time, w1) := Date_now w in
  (let? entries := iterate data in
   let? st := parseProm_loop time entries ([], ∅) in
   Ok (fst st),
   w1).

(** *** The two queries *)

(** [config.mode] where [config] is known to be an object. *)
Definition mode_of (config : jsval) : jsval :=
  match Get config "mode" with
  | Ok mode => mode
  | Throw _ => JUndefined
  end.

(** The [catch] block shared by the two queries. *)
Definition catch_fetch (config URI : jsval)
    (attempt : result (list MetricRecord) * World)
  : result returned * World :=
  match attempt with
  | (Ok res, w) => (Ok (Batch res), w)
  | (Throw error, w) =>
      (Ok Undefined, console_error (FetchError (mode_of config) URI error) w)
  end.

Definition kafkaMetricsQuery (config : jsval) (w : World)
  : result returned * World :=
  match getMetricsURI config with
  | Throw e => (Throw e, w)
  | Ok URI =>
      catch_fetch config URI
        match axios_get w URI with
        | Throw e => (Throw e, w)
        | Ok response =>
            match Get response "data" with
            | Throw e => (Throw e, w)
            | Ok data => extractWord (mode_of config) data w
            end
        end
  end.

Definition quote : string := String (ascii_of_nat 34) EmptyString.

(** The selector [{__name__=~".+",container=""}]. *)
Definition all_metrics : string :=
  "{__name__=~" ++ quote ++ ".+" ++ quote ++ ",container=" ++ quote ++ quote ++ "}".

Definition promMetricsQuery (config : jsval) (w : World)
  : result returned * World :=
  match getMetricsURI config with
  | Throw e => (Throw e, w)
  | Ok URI =>
      match ToString URI with
      | Throw e => (Throw e, w)
      | Ok address =>
          let query := JStr (address ++ encodeURIComponent all_metrics) in
          catch_fetch config URI
            match axios_get w query with
            | Throw e => (Throw e, w)
            | Ok response =>
                match (let? body := Get response "data" in
                       let? data := Get body "data" in
                       Get data "result") with
                | Throw e => (Throw e, w)
                | Ok result => parseProm result w
                end
            end
      end
  end.

(** *** [validateInput] *)

(** The helpers below read further properties with [Get] ([microservice],
    [database], [interval], [dockerized], [port], [type], [URI],
    [connection], [notifications], [settings], [status]); no prototype
    defines any of these either. *)

(** [if (condition) throw new Error(message)]. *)
Definition throw_when (condition : bool) (message : string) : result unit :=
  if condition then Throw (Error message) else Ok tt.

(** [typeof v !== name]. *)
Definition type_is_not (name : string) (v : jsval) : bool :=
  negb (String.eqb (typeof v) name).

Definition modeTypes : list string := ["kafka"; "kubernetes"; "microservices"].

(** The checks of [validateInput], from the destructuring of [config] to
    the last [throw]; they answer with the [interval] and the [dockerized]
    that the destructuring read.  ([port] is read too and never used;
    [database.type] and the like are read again at every use, to the same
    value.) *)
Definition validateInput_checks (config : jsval) : result (jsval * jsval) :=
  let? microservice := Get config "microservice" in
  let? database := Get config "database" in
  let? interval := Get config "interval" in
  let? dockerized := Get config "dockerized" in
  let? jmxuri := Get config "jmxuri" in
  let? mode := Get config "mode" in
  let? promService := Get config "promService" in
  let? promPort := Get config "promPort" in
  let? _ := throw_when
      (negb (ToBoolean microservice) || type_is_not "string" microservice)
      ("Invalid input " ++ quote ++ "microservice" ++ quote ++
       ": Please provide a name for your microservice") in
  let? type := Get database "type" in
  let? _ := throw_when
      (negb (ToBoolean type) || type_is_not "string" type)
      ("Invalid input " ++ quote ++ "database type" ++ quote ++
       ": Chronos supports PostgreSQL and MongoDB") in
  let? URI := Get database "URI" in
  let? _ := throw_when
      (negb (ToBoolean URI) || type_is_not "string" URI)
      ("Invalid input " ++ quote ++ "database URI" ++ quote ++
       ": Please provide the URI to your database") in
  let? connection := Get database "connection" in
  let? _ := throw_when
      (negb (ToBoolean connection) || type_is_not "string" connection)
      ("Invalid input " ++ quote ++
       "database connection type: Please provide the type of connection") in
  let? _ := throw_when
      (negb (ToBoolean mode) || negb (includes modeTypes mode))
      ("You must input a mode into your chronos.config file. The mode may either be "
       ++ quote ++ "kubernetes" ++ quote ++ ", " ++ quote ++ "kafka" ++ quote
       ++ ", or " ++ quote ++ "microservice" ++ quote) in
  let? _ := throw_when
      (strict_eq_string mode "kafka" && ToBoolean jmxuri &&
       type_is_not "string" jmxuri)
      ("Invalid input for " ++ quote ++ "jmxuri" ++ quote ++
       " in chronos-config.js: Please provide the address of the JMX Exporter") in
  let? _ :=
    if strict_eq_string mode "kubernetes" then
      throw_when
        (negb (ToBoolean promService) || type_is_not "string" promService ||
         negb (ToBoolean promPort) || type_is_not "number" promPort)
        "Invalid input for promService or promPort. promPort must be number and promService must be a string"
    else Ok tt in
  let? _ :=
    if negb (strict_eq_string type "PostgreSQL") &&
       negb (strict_eq_string type "MongoDB")
    then
      let? text := ToString type in
      Throw (Error ("Invalid input " ++ quote ++ text ++ quote ++
                    ". Chronos only supports PostgreSQL and MongoDB."))
    else Ok tt in
  let? _ :=
    if negb (strict_eq_string connection "REST") &&
       negb (strict_eq_string connection "gRPC")
    then
      let? text := ToString connection in
      Throw (Error ("Invalid database connection " ++ quote ++ text ++ quote ++
                    ". Chronos only supports REST and gRPC."))
    else Ok tt in
  Ok (interval, dockerized).

(** The number 60000. *)
Definition one_minute : number := of_decimal false 60000 0.

(** [validateInput(config)]: what the call returns or throws, and the
    [config] object as the call leaves it (the function assigns to the
    object it is given and returns that very object). *)
Definition validateInput (config : jsval) : result jsval * jsval :=
  match validateInput_checks config with
  | Throw e => (Throw e, config)
  | Ok (interval, dockerized) =>
      let config1 :=
        if negb (ToBoolean interval) || type_is_not "number" interval
        then SetProp config "interval" (JNum one_minute)
        else config in
      match dockerized with
      | JUndefined =>
          let config2 := SetProp config1 "dockerized" (JBool false) in
          (Ok config2, config2)
      | _ =>
          match constructor_name dockerized with
          | Throw e => (Throw e, config1)
          | Ok name =>
              if negb (strict_eq_string name "Boolean") then
                let config2 := SetProp config1 "dockerized" (JBool false) in
                (Ok config2, config2)
              else (Ok config1, config1)
          end
      end
  end.

(** *** [addNotifications] *)

Definition features : list string := ["slack"; "email"; "sms"].

(** The callback of [notifications.forEach], on the [config] object as the
    earlier calls left it. *)
Definition addNotifications_body (config obj : jsval) : result jsval :=
  let? type := Get obj "type" in
  if negb (includes features type) then
    let? text := ToString type in
    Throw (Error (text ++ " is not a supported notification method for Chronos"))
  else
    let? settings := Get obj "settings" in
    let? key := ToString type in
    Ok (SetProp config key settings).

(** [forEach] over the remaining elements: the outcome, and the [config]
    object as the loop leaves it. *)
Fixpoint addNotifications_loop (elements : list jsval) (config : jsval)
  : result jsval * jsval :=
  match elements with
  | [] => (Ok config, config)
  | obj :: rest =>
      match addNotifications_body config obj with
      | Throw e => (Throw e, config)
      | Ok config' => addNotifications_loop rest config'
      end
  end.

Definition addNotifications (config : jsval) : result jsval * jsval :=
  match Get config "notifications" with
  | Throw e => (Throw e, config)
  | Ok notifications =>
      if ToBoolean notifications then
        match notifications with
        | JArr elements => addNotifications_loop elements config
        | _ => (Throw TypeError, config)   (* [forEach] is not a function *)
        end
      else (Ok config, config)
  end.

(** *** [testMetricsQuery] *)

(** What [testMetricsQuery] can be rejected with: an exception of the kinds
    above, or the [ReferenceError] of a name that is not in scope. *)
Inductive rejection : Type :=
| Thrown (e : exn)
| ReferenceError (name : string).

(** What [testMetricsQuery] writes: [console.error(message, URI)] or
    [console.log(message, URI)]. *)
Inductive probe_line : Type :=
| ProbeError (message : string) (URI : jsval)
| ProbeLog (message : string) (URI : jsval).

(** The number 200. *)
Definition status_ok : number := of_decimal false 200 0.

(** [testMetricsQuery(config)]: the response it is fulfilled with or what it
    is rejected with, and the lines it writes.  In the [catch] block the
    name [response] is not in scope (it is declared by [const] inside the
    [try] block), so evaluating [console.error(response)] throws before
    anything is written and before the [throw] that follows it. *)
Definition testMetricsQuery (config : jsval) (w : World)
  : (jsval + rejection) * list probe_line :=
  match getMetricsURI config with
  | Throw e => (inr (Thrown e), [])
  | Ok URI0 =>
      match (if strict_eq_string (mode_of config) "kubernetes"
             then let? text := ToString URI0 in Ok (JStr (text ++ "up"))
             else Ok URI0) with
      | Throw e => (inr (Thrown e), [])
      | Ok URI =>
          match (let? response := axios_get w URI in
                 let? status := Get response "status" in
                 Ok (response, status)) with
          | Throw _ => (inr (ReferenceError "response"), [])
          | Ok (response, status) =>
              (inl response,
               [if negb (strict_eq_number status status_ok)
                then ProbeError "Invalid response from metrics server:" URI
                else ProbeLog "Successful initial response from metrics server:" URI])
          end
      end
  end.

End helpers.

(** * Notions used in the statements *)

Import Num JS helpers.

(** ** Lines of a text payload *)

(** Does the character [c] occur in [s]? *)
Fixpoint contains (c : ascii) (s : string) : bool :=
  match s with
  | EmptyString => false
  | String d rest => Ascii.eqb d c || contains c rest
  end.

(** The string without its final character. *)
Fixpoint drop_last (s : string) : string :=
  match s with
  | EmptyString => EmptyString
  | String c EmptyString => EmptyString
  | String c rest => String c (drop_last rest)
  end.

(** The payload whose lines are [lines]. *)
Fixpoint join_lines (lines : list string) : string :=
  match lines with
  | [] => EmptyString
  | [line] => line
  | line :: rest => line ++ String newline (join_lines rest)
  end.

(** The three reasons for which the loop skips a line. *)
Definition blank (element : string) : Prop := element = EmptyString.

Definition comment (element : string) : Prop :=
  exists rest, element = String "#" rest.

Definition suppressed_prefix (mode : jsval) (element : string) : Prop :=
  mode = JStr "kafka" /\
  (substring 0 3 element = "jmx" \/ substring 0 4 element = "'jmx").

(** A line that reaches the parse. *)
Definition surviving (mode : jsval) (element : string) : Prop :=
  ~ blank element /\ ~ comment element /\ ~ suppressed_prefix mode element.

(** The same, as a test. *)
Definition survives (mode : jsval) (element : string) : bool :=
  negb (String.eqb element EmptyString) &&
  negb (match element with
        | String c _ => Ascii.eqb c "#"
        | EmptyString => false
        end) &&
  negb (strict_eq_string mode "kafka" &&
        (String.eqb (substring 0 3 element) "jmx" ||
         String.eqb (substring 0 4 element) "'jmx")).

(** The property every record pushed in text mode has. *)
Definition text_record (t : Z) (r : MetricRecord) : Prop :=
  time r = t /\ exists n, value r = JNum n /\ is_NaN n = false.

(** ** Entries of a structured payload *)

(** The three labels the loop reads from an entry. *)
Definition labels_of (info : jsval) : result (jsval * jsval * jsval) :=
  let? labels := Get info "metric" in
  let? job := Get labels "job" in
  let? instance := Get labels "instance" in
  let? name_label := Get labels "__name__" in
  Ok (job, instance, name_label).

(** The derived identity [job + '/' + instance + '/' + __name__]. *)
Definition identity (labels : jsval * jsval * jsval) : result string :=
  let '(job, instance, name_label) := labels in
  let? job_text := ToString job in
  let? instance_text := ToString instance in
  let? name_text := ToString name_label in
  Ok (job_text ++ "/" ++ instance_text ++ "/" ++ name_text).

(** The candidate value: [info.value], or its element 1 when it is built by
    [Array]. *)
Definition candidate (info : jsval) : result jsval :=
  let? value := Get info "value" in
  let? ctor := constructor_name value in
  if strict_eq_string ctor "Array" then GetIndex value 1 else Ok value.

(** The negation of the test [isNaN(value) || value === 'NaN']. *)
Definition passes (v : jsval) : result bool :=
  let? nan := isNaN v in
  Ok (negb (nan || strict_eq_string v "NaN")).

Definition record_of (name : string) (v : jsval) (t : Z) : MetricRecord :=
  {| metric := name; value := v; time := t; category := "Event" |}.

(** What one turn of the loop can do to the state. *)
Inductive turn (t : Z) (info : jsval) (res : list MetricRecord)
    (names : gset string) : list MetricRecord * gset string -> Prop :=
| turn_no_job labels :
    labels_of info = Ok labels ->
    ToBoolean (fst (fst labels)) = false ->
    turn t info res names (res, names)
| turn_seen labels name :
    labels_of info = Ok labels ->
    ToBoolean (fst (fst labels)) = true ->
    identity labels = Ok name ->
    name ∈ names ->
    turn t info res names (res, names)
| turn_dropped labels name v :
    labels_of info = Ok labels ->
    ToBoolean (fst (fst labels)) = true ->
    identity labels = Ok name ->
    name ∉ names ->
    candidate info = Ok v ->
    passes v = Ok false ->
    turn t info res names (res, names ∪ {[ name ]})
| turn_pushed labels name v :
    labels_of info = Ok labels ->
    ToBoolean (fst (fst labels)) = true ->
    identity labels = Ok name ->
    name ∉ names ->
    candidate info = Ok v ->
    passes v = Ok true ->
    turn t info res names
      ((res ++ [record_of name v t])%list, names ∪ {[ name ]}).

(** The property every pushed record has. *)
Definition well_formed (t : Z) (r : MetricRecord) : Prop :=
  time r = t /\ isNaN (value r) = Ok false /\ value r <> JStr "NaN".

(** The invariant of the loop: every pushed record is well formed and
    carries a name that is marked as seen, and no name was pushed twice. *)
Definition batch_invariant (t : Z) (st : list MetricRecord * gset string) : Prop :=
  Forall (well_formed t) (fst st) /\
  (forall r, In r (fst st) -> metric r ∈ snd st) /\
  NoDup (map metric (fst st)).

(** The entry [info] qualifies for a record named [name] with value [v]:
    its [job] is truthy, [name] is its identity, and [v] is its candidate
    value and passes the NaN test. *)
Definition retained (info : jsval) (name : string) (v : jsval) : Prop :=
  exists labels,
    labels_of info = Ok labels /\
    ToBoolean (fst (fst labels)) = true /\
    identity labels = Ok name /\
    candidate info = Ok v /\
    passes v = Ok true.

(** ** Invocations *)

(** One call of either parser. *)
Inductive invocation : Type :=
| TextMode (mode text : jsval)
| StructuredMode (data : jsval).

Definition invoke (i : invocation) (w : World)
  : result (list MetricRecord) * World :=
  match i with
  | TextMode mode text => extractWord mode text w
  | StructuredMode data => parseProm data w
  end.

(** ** Configurations *)

(** What [validateInput] asks of [config.database]. *)
Definition valid_database (db : jsval) : Prop :=
  exists type URI connection,
    Get db "type" = Ok (JStr type) /\
    (type = "PostgreSQL" \/ type = "MongoDB") /\
    Get db "URI" = Ok (JStr URI) /\ URI <> EmptyString /\
    Get db "connection" = Ok (JStr connection) /\
    (connection = "REST" \/ connection = "gRPC").

(** What [validateInput] asks of the fields that go with the mode [mode]:
    in [kafka] mode a [jmxuri] that is a string unless it is falsy, in
    [kubernetes] mode a non-empty [promService] and a truthy number
    [promPort]. *)
Definition valid_mode (config : jsval) (mode : string) : Prop :=
  In mode modeTypes /\
  (mode = "kafka" ->
   exists jmxuri, Get config "jmxuri" = Ok jmxuri /\
                  (ToBoolean jmxuri = false \/ exists s, jmxuri = JStr s)) /\
  (mode = "kubernetes" ->
   exists service port,
     Get config "promService" = Ok (JStr service) /\ service <> EmptyString /\
     Get config "promPort" = Ok (JNum port) /\ ToBoolean (JNum port) = true).

(** A configuration that passes every check of [validateInput]. *)
Definition valid_config (config : jsval) : Prop :=
  (exists name, Get config "microservice" = Ok (JStr name) /\
                name <> EmptyString) /\
  (exists db, Get config "database" = Ok db /\ valid_database db) /\
  (exists mode, Get config "mode" = Ok (JStr mode) /\ valid_mode config mode).

(** The settings of the last notification of type [type], if there is one. *)
Fixpoint last_settings (type : string) (elements : list jsval) : option jsval :=
  match elements with
  | [] => None
  | obj :: rest =>
      match last_settings type rest with
      | Some settings => Some settings
      | None =>
          match Get obj "type", Get obj "settings" with
          | Ok t, Ok settings =>
              if strict_eq_string t type then Some settings else None
          | _, _ => None
          end
      end
  end.

(** A notification of one of the supported types. *)
Definition supported (obj : jsval) : Prop :=
  exists type, Get obj "type" = Ok (JStr type) /\ In type features.


(** ** Sample data *)

(** A world to evaluate examples in: the clock reads 1700000000000, then
    one millisecond more at every call; every request is rejected. *)
Definition sample_world : World :=
  {| clock := fun n => Z.of_nat n + 1700000000000;
     ticks := 0;
     console := [];
     axios_get := fun _ => Throw Rejected |}.

(** The number a numeric literal denotes. *)
Definition literal (s : string) : jsval := JNum (StringToNumber s).

(** A result entry as the query API reports it; [extra] holds the labels
    other than the three that make the identity. *)
Definition entry (job instance name : string) (extra : list (string * jsval))
    (v : jsval) : jsval :=
  JObj [("metric",
         JObj (("__name__", JStr name) :: ("instance", JStr instance) ::
               ("job", JStr job) :: extra));
        ("value", v)].

(** The pair [[sample_timestamp, sample_value]]. *)
Definition sample (text : string) : jsval :=
  JArr [literal "1700000000"; JStr text].

Definition requests_total (extra : list (string * jsval)) (v : jsval) : jsval :=
  entry "api" "10.0.0.1:9090" "http_requests_total" extra v.

Definition kubernetes_config : jsval :=
  JObj [("mode", JStr "kubernetes"); ("promService", JStr "prometheus");
        ("promPort", literal "9090")].

Definition kafka_config : jsval :=
  JObj [("mode", JStr "kafka"); ("jmxuri", JStr "http://localhost:12345/metrics")].

(** A configuration of the microservice [books], in mode [mode], with a
    MongoDB database reached over REST and the further fields [extra]. *)
Definition books_config (mode : string) (extra : list (string * jsval)) : jsval :=
  JObj (("microservice", JStr "books") :: ("mode", JStr mode) ::
        ("database", JObj [("connection", JStr "REST"); ("type", JStr "MongoDB");
                           ("URI", JStr "mongodb://localhost")]) :: extra).

(** A notification, as the configuration lists them. *)
Definition notification (type : string) (settings : jsval) : jsval :=
  JObj [("type", JStr type); ("settings", settings)].

(** [w] with every request answered by a response whose body is [body]. *)
Definition answering (body : jsval) (w : World) : World :=
  {| clock := clock w; ticks := ticks w; console := console w;
     axios_get := fun _ => Ok (JObj [("status", literal "200"); ("data", body)]) |}.

(** * Properties *)

(** ** Strings: the last space and the two slices *)

Section StringFacts.

Lemma strlen_nonneg s : 0 <= strlen s.
Proof. unfold strlen. lia. Qed.

Lemma strlen_cons c s : strlen (String c s) = strlen s + 1.
Proof. unfold strlen. simpl String.length. lia. Qed.


Lemma lastIndexOf_from_absent c s i found :
  contains c s = false -> lastIndexOf_from c s i found = found.
Proof.
  revert i found. induction s as [|d s IH]; intros i found H; simpl in *.
  - reflexivity.
  - apply orb_false_iff in H as [Hd Hs]. rewrite Hd. now apply IH.
Qed.



Lemma substring_0_all s : substring 0 (String.length s) s = s.
Proof. induction s as [|c s IH]; simpl; [reflexivity | now rewrite IH]. Qed.


Lemma substring_drop_last s :
  substring 0 (String.length s - 1) s = drop_last s.
Proof.
  induction s as [|c s IH]; [reflexivity|].
  destruct s as [|d s]; [reflexivity|].
  replace (String.length (String c (String d s)) - 1)%nat
    with (S (String.length (String d s) - 1))
    by (cbn [String.length]; lia).
  change (substring 0 (S ?n) (String c ?r))
    with (String c (substring 0 n r)).
  rewrite IH. reflexivity.
Qed.

Lemma resolve_index_inside len i :
  0 <= i <= len -> resolve_index len i = i.
Proof.
  intros H. unfold resolve_index.
  destruct (Z.ltb_spec i 0); lia.
Qed.

Lemma resolve_index_negative len i :
  i < 0 -> 0 <= len + i -> resolve_index len i = len + i.
Proof.
  intros H1 H2. unfold resolve_index.
  destruct (Z.ltb_spec i 0); lia.
Qed.

Lemma slice_inside s a b :
  0 <= a <= b -> b <= strlen s ->
  slice s a b = substring (Z.to_nat a) (Z.to_nat (b - a)) s.
Proof.
  intros Ha Hb. unfold slice.
  rewrite !resolve_index_inside by lia.
  now rewrite Z.max_l by lia.
Qed.



(** A line with no space: [lastIndexOf] answers [-1], the first slice loses
    the final character and the second is the whole line. *)
Lemma no_space_cut line :
  line <> EmptyString ->
  contains " " line = false ->
  lastIndexOf line " " = -1 /\
  slice line 0 (-1) = drop_last line /\
  slice_from line (-1 + 1) = line.
Proof.
  intros Hne Hline.
  assert (Hlen : 1 <= strlen line).
  { destruct line; [congruence|]. rewrite strlen_cons.
    pose proof (strlen_nonneg line). lia. }
  split; [|split].
  - unfold lastIndexOf. now apply lastIndexOf_from_absent.
  - unfold slice.
    rewrite resolve_index_inside, resolve_index_negative by lia.
    rewrite Z.sub_0_r, Z.max_l by lia.
    replace (Z.to_nat (strlen line + -1)) with (String.length line - 1)%nat
      by (unfold strlen; lia).
    apply substring_drop_last.
  - change (-1 + 1) with 0. unfold slice_from.
    rewrite slice_inside by lia.
    rewrite Z.sub_0_r. unfold strlen. rewrite Nat2Z.id.
    apply substring_0_all.
Qed.

End StringFacts.

(** ** Text mode: [extractWord] *)

Lemma strict_eq_string_spec v s :
  strict_eq_string v s = true <-> v = JStr s.
Proof.
  destruct v; simpl; try (split; [discriminate | congruence]).
  rewrite String.eqb_eq. split; congruence.
Qed.

Lemma strict_eq_string_false v s :
  v <> JStr s -> strict_eq_string v s = false.
Proof.
  intros H. destruct (strict_eq_string v s) eqn:E; [|reflexivity].
  now apply strict_eq_string_spec in E.
Qed.

Lemma survives_spec mode element :
  survives mode element = true <-> surviving mode element.
Proof.
  unfold survives, surviving, blank, comment, suppressed_prefix.
  rewrite !andb_true_iff, !negb_true_iff.
  split.
  - intros [[Hblank Hcomment] Hprefix]. repeat split.
    + intros ->. discriminate Hblank.
    + intros [rest ->]. discriminate Hcomment.
    + intros [-> [H | H]]; rewrite H in Hprefix;
        [discriminate Hprefix | now rewrite orb_true_r in Hprefix].
  - intros (Hblank & Hcomment & Hprefix). repeat split.
    + destruct element; [now destruct Hblank | reflexivity].
    + destruct element as [|c rest]; [reflexivity|].
      destruct (Ascii.eqb_spec c "#") as [-> | _]; [|reflexivity].
      destruct Hcomment. now exists rest.
    + destruct (strict_eq_string mode "kafka") eqn:Hmode; [|reflexivity].
      apply strict_eq_string_spec in Hmode.
      destruct (String.eqb_spec (substring 0 3 element) "jmx") as [H3 | _].
      { destruct Hprefix. split; [assumption | now left]. }
      destruct (String.eqb_spec (substring 0 4 element) "'jmx") as [H4 | _].
      { destruct Hprefix. split; [assumption | now right]. }
      reflexivity.
Qed.

#[global] Instance surviving_dec mode element : Decision (surviving mode element).
Proof.
  destruct (survives mode element) eqn:E; [left | right].
  - now apply survives_spec.
  - intros H. apply survives_spec in H. congruence.
Defined.

(** Closes a goal [surviving mode line] on a concrete line. *)
Ltac surviving_line := apply survives_spec; reflexivity.

Lemma body_blank_or_comment mode t st element :
  blank element \/ comment element ->
  extractWord_body mode t st element = st.
Proof.
  unfold extractWord_body. intros [-> | [rest ->]]; reflexivity.
Qed.

Lemma body_suppressed mode t st element :
  suppressed_prefix mode element ->
  extractWord_body mode t st element = st.
Proof.
  intros [-> Hprefix]. unfold extractWord_body.
  destruct element as [|c rest]; [reflexivity|].
  destruct (Ascii.eqb c "#"); [reflexivity|].
  replace (strict_eq_string (JStr "kafka") "kafka") with true by reflexivity.
  destruct Hprefix as [H | H]; rewrite H; [reflexivity|].
  now rewrite orb_true_r.
Qed.

Lemma body_other_mode mode t st element :
  mode <> JStr "kafka" -> ~ blank element -> ~ comment element ->
  extractWord_body mode t st element = extractWord_parse t st element.
Proof.
  intros Hmode Hblank Hcomment. unfold extractWord_body.
  destruct element as [|c rest]; [now destruct Hblank|].
  destruct (Ascii.eqb_spec c "#") as [-> | _].
  - destruct Hcomment. now exists rest.
  - now rewrite strict_eq_string_false.
Qed.

Lemma body_surviving mode t st element :
  surviving mode element ->
  extractWord_body mode t st element = extractWord_parse t st element.
Proof.
  intros (Hblank & Hcomment & Hprefix). unfold extractWord_body.
  destruct element as [|c rest]; [now destruct Hblank|].
  destruct (Ascii.eqb_spec c "#") as [-> | _].
  { destruct Hcomment. now exists rest. }
  destruct (strict_eq_string mode "kafka") eqn:Hmode; [|reflexivity].
  apply strict_eq_string_spec in Hmode.
  destruct (String.eqb_spec (substring 0 3 (String c rest)) "jmx") as [H3 | _].
  { destruct Hprefix. split; [assumption | now left]. }
  destruct (String.eqb_spec (substring 0 4 (String c rest)) "'jmx") as [H4 | _].
  { destruct Hprefix. split; [assumption | now right]. }
  reflexivity.
Qed.

(** The loop only appends: what it has pushed and logged stays in place, and
    the clock is not read again. *)
Lemma extractWord_body_extends mode t res w element :
  exists more logged,
    extractWord_body mode t (res, w) element =
      ((res ++ more)%list,
       {| clock := clock w; ticks := ticks w;
          console := (console w ++ logged)%list; axios_get := axios_get w |}) /\
    Forall (text_record t) more.
Proof.
  assert (Hsame : exists more logged,
    (res, w) = ((res ++ more)%list,
       {| clock := clock w; ticks := ticks w;
          console := (console w ++ logged)%list; axios_get := axios_get w |}) /\
    Forall (text_record t) more).
  { exists [], []. rewrite !app_nil_r. destruct w; split; [reflexivity | constructor]. }
  unfold extractWord_body.
  destruct (match element with EmptyString => true | String c _ => Ascii.eqb c "#" end);
    [exact Hsame|].
  destruct (strict_eq_string mode "kafka" && _); [exact Hsame|].
  unfold extractWord_parse.
  destruct (is_NaN (StringToNumber _)) eqn:Hnan; cbn [negb].
  - exists [], [InvalidMetric element]. rewrite app_nil_r.
    split; [reflexivity | constructor].
  - eexists [_], []. rewrite app_nil_r. destruct w; split; [reflexivity|].
    repeat constructor. eexists; split; [reflexivity | exact Hnan].
Qed.

Lemma extractWord_loop_extends mode t arr : forall res w,
  exists more logged,
    fold_left (extractWord_body mode t) arr (res, w) =
      ((res ++ more)%list,
       {| clock := clock w; ticks := ticks w;
          console := (console w ++ logged)%list; axios_get := axios_get w |}) /\
    Forall (text_record t) more.
Proof.
  induction arr as [|element arr IH]; intros res w; cbn [fold_left].
  - exists [], []. rewrite !app_nil_r. destruct w; split; [reflexivity | constructor].
  - destruct (extractWord_body_extends mode t res w element)
      as (more1 & logged1 & -> & Hmore1).
    destruct (IH (res ++ more1)%list
                {| clock := clock w; ticks := ticks w;
                   console := (console w ++ logged1)%list;
                   axios_get := axios_get w |})
      as (more2 & logged2 & -> & Hmore2).
    exists (more1 ++ more2)%list, (logged1 ++ logged2)%list.
    cbn [clock ticks console axios_get]. rewrite !app_assoc.
    split; [reflexivity | now apply Forall_app].
Qed.

(** Splitting undoes joining: the loop of [extractWord] visits the lines of
    a payload one by one, in order. *)
Lemma split_newline_line line rest :
  contains newline line = false ->
  split_newline (line ++ String newline rest) = line :: split_newline rest.
Proof.
  induction line as [|c line IH]; intros Hline.
  - reflexivity.
  - cbn [contains] in Hline. apply orb_false_iff in Hline as [Hc Hline].
    change (String c line ++ String newline rest)
      with (String c (line ++ String newline rest)).
    cbn [split_newline]. rewrite Hc, IH by assumption. reflexivity.
Qed.

Lemma split_newline_single line :
  contains newline line = false -> split_newline line = [line].
Proof.
  induction line as [|c line IH]; intros Hline.
  - reflexivity.
  - cbn [contains] in Hline. apply orb_false_iff in Hline as [Hc Hline].
    cbn [split_newline]. rewrite Hc, IH by assumption. reflexivity.
Qed.

Lemma split_newline_join lines :
  lines <> [] ->
  Forall (fun line => contains newline line = false) lines ->
  split_newline (join_lines lines) = lines.
Proof.
  induction lines as [|line lines IH]; intros Hne Hlines; [congruence|].
  apply Forall_cons in Hlines as [Hline Hlines].
  destruct lines as [|next lines].
  - now apply split_newline_single.
  - change (join_lines (line :: next :: lines))
      with (line ++ String newline (join_lines (next :: lines))).
    rewrite split_newline_line by assumption.
    now rewrite IH.
Qed.

Lemma extractWord_lines mode lines w :
  lines <> [] ->
  Forall (fun line => contains newline line = false) lines ->
  extractWord mode (JStr (join_lines lines)) w =
    (Ok (fst (fold_left (extractWord_body mode (clock w (ticks w))) lines
                ([], snd (Date_now w)))),
     snd (fold_left (extractWord_body mode (clock w (ticks w))) lines
            ([], snd (Date_now w)))).
Proof.
  intros Hne Hlines. unfold extractWord.
  rewrite split_newline_join by assumption. cbn [Date_now snd].
  now destruct (fold_left _ lines _).
Qed.


(** What a returned batch of [extractWord] looks like. *)
Lemma extractWord_batch mode text w res w' :
  extractWord mode text w = (Ok res, w') ->
  ticks w' = S (ticks w) /\
  Forall (text_record (clock w (ticks w))) res.
Proof.
  unfold extractWord. destruct text; try discriminate.
  cbn [Date_now].
  match goal with |- context [fold_left ?f ?l (?r, ?w1)] =>
    destruct (extractWord_loop_extends mode (clock w (ticks w)) l r w1)
      as (more & logged & -> & Hmore)
  end.
  intros [= <- <-]. cbn [ticks]. split; [reflexivity | exact Hmore].
Qed.

(** ** Structured mode: [parseProm] *)

Section ParsePromLoop.

(** The batch timestamp, fixed for the whole loop. *)
Variable t : Z.

(** The loop body, read through the four notions above. *)
Lemma parseProm_body_unfold res names info :
  parseProm_body t (res, names) info =
    let? labels := labels_of info in
    if negb (ToBoolean (fst (fst labels))) then Ok (res, names)
    else
      let? name := identity labels in
      if bool_decide (name ∈ names) then Ok (res, names)
      else
        let? v := candidate info in
        let? ok := passes v in
        if ok then Ok ((res ++ [record_of name v t])%list, names ∪ {[ name ]})
        else Ok (res, names ∪ {[ name ]}).
Proof.
  unfold parseProm_body, labels_of, identity, candidate, passes, record_of.
  destruct (Get info "metric") as [labels|e]; cbn [rbind]; [|reflexivity].
  destruct labels; cbn [Get rbind fst]; try reflexivity;
    (destruct (negb (ToBoolean _)); [reflexivity|]);
    (destruct (ToString _) as [job_text|]; cbn [rbind]; [|reflexivity]);
    (destruct (ToString _) as [instance_text|]; cbn [rbind]; [|reflexivity]);
    (destruct (ToString _) as [name_text|]; cbn [rbind]; [|reflexivity]);
    (destruct (bool_decide _); [reflexivity|]);
    (destruct (Get info "value") as [v|]; cbn [rbind]; [|reflexivity]);
    (destruct (constructor_name v) as [ctor|]; cbn [rbind]; [|reflexivity]);
    (destruct (if strict_eq_string ctor "Array" then _ else _) as [v'|];
       cbn [rbind]; [|reflexivity]);
    (destruct (isNaN v') as [nan|]; cbn [rbind]; [|reflexivity]);
    destruct (nan || strict_eq_string v' "NaN"); reflexivity.
Qed.

Lemma parseProm_body_turn res names info st' :
  parseProm_body t (res, names) info = Ok st' ->
  turn t info res names st'.
Proof.
  rewrite parseProm_body_unfold.
  destruct (labels_of info) as [labels|] eqn:Hlabels; cbn [rbind]; [|discriminate].
  destruct (ToBoolean (fst (fst labels))) eqn:Hjob; cbn [negb].
  2:{ intros [= <-]. now apply turn_no_job with labels. }
  destruct (identity labels) as [name|] eqn:Hname; cbn [rbind]; [|discriminate].
  case_bool_decide as Hseen.
  { intros [= <-]. now apply turn_seen with labels name. }
  destruct (candidate info) as [v|] eqn:Hv; cbn [rbind]; [|discriminate].
  destruct (passes v) as [[|]|] eqn:Hok; cbn [rbind]; [| |discriminate].
  - intros [= <-]. now apply turn_pushed with labels.
  - intros [= <-]. now apply turn_dropped with labels v.
Qed.

Lemma parseProm_loop_app l1 l2 st :
  parseProm_loop t (l1 ++ l2)%list st =
    let? st1 := parseProm_loop t l1 st in parseProm_loop t l2 st1.
Proof.
  revert st. induction l1 as [|info l1 IH]; intros st; cbn [parseProm_loop app].
  - reflexivity.
  - destruct (parseProm_body t st info) as [st'|]; cbn [rbind]; [apply IH | reflexivity].
Qed.

Lemma passes_true v :
  passes v = Ok true -> isNaN v = Ok false /\ v <> JStr "NaN".
Proof.
  unfold passes. destruct (isNaN v) as [[|]|]; cbn [rbind orb negb];
    try discriminate.
  destruct (strict_eq_string v "NaN") eqn:E; cbn [negb]; [discriminate|].
  intros _. split; [reflexivity|]. intros ->. discriminate E.
Qed.


Lemma turn_invariant info res names st' :
  turn t info res names st' ->
  batch_invariant t (res, names) -> batch_invariant t st'.
Proof.
  intros H (Hwf & Hmarked & Hnodup); cbn [fst snd] in *.
  destruct H; unfold batch_invariant; cbn [fst snd]; try (now repeat split).
  - repeat split; [assumption | | assumption].
    intros r Hr. specialize (Hmarked r Hr). set_solver.
  - match goal with H : passes _ = Ok true |- _ =>
      apply passes_true in H as [Hnan Hstr] end.
    repeat split.
    + apply Forall_app. split; [assumption|].
      repeat constructor; assumption.
    + intros r [Hr | [<- | []]]%in_app_or.
      * specialize (Hmarked r Hr). set_solver.
      * cbn [metric record_of]. set_solver.
    + rewrite map_app. cbn [map metric record_of].
      apply NoDup_app. repeat split; [assumption | | apply NoDup_singleton].
      intros x Hx [->|[]%elem_of_nil]%elem_of_cons.
      apply list_elem_of_In, in_map_iff in Hx as (r & <- & Hr).
      match goal with H : _ ∉ names |- _ => apply H end.
      now apply Hmarked.
Qed.


Lemma parseProm_loop_invariant entries : forall st st',
  parseProm_loop t entries st = Ok st' ->
  batch_invariant t st -> batch_invariant t st'.
Proof.
  induction entries as [|info entries IH]; intros [res names] st';
    cbn [parseProm_loop].
  - now intros [= <-].
  - destruct (parseProm_body t (res, names) info) as [[res1 names1]|] eqn:Hbody;
      cbn [rbind]; [|discriminate].
    intros Hloop Hinv. apply parseProm_body_turn in Hbody.
    eapply IH; [exact Hloop|]. eapply turn_invariant; eassumption.
Qed.

Lemma batch_invariant_start : batch_invariant t ([], ∅).
Proof. repeat split; [constructor | intros r [] | constructor]. Qed.

Lemma body_skips_no_job st info labels :
  labels_of info = Ok labels ->
  ToBoolean (fst (fst labels)) = false ->
  parseProm_body t st info = Ok st.
Proof.
  intros Hlabels Hjob. destruct st as [res names].
  rewrite parseProm_body_unfold, Hlabels. cbn [rbind]. now rewrite Hjob.
Qed.





End ParsePromLoop.

(** [parseProm] through its loop. *)
Lemma parseProm_entries entries w :
  parseProm (JArr entries) w =
    (let? st := parseProm_loop (clock w (ticks w)) entries ([], ∅) in Ok (fst st),
     snd (Date_now w)).
Proof. reflexivity. Qed.

Lemma parseProm_returned data w res w' :
  parseProm data w = (Ok res, w') ->
  exists entries names,
    iterate data = Ok entries /\
    parseProm_loop (clock w (ticks w)) entries ([], ∅) = Ok (res, names) /\
    w' = snd (Date_now w).
Proof.
  unfold parseProm. cbn [Date_now snd].
  destruct (iterate data) as [entries|]; cbn [rbind]; [|discriminate].
  destruct (parseProm_loop _ entries _) as [[res1 names]|] eqn:Hloop;
    cbn [rbind fst]; [|discriminate].
  intros [= <- <-]. now exists entries, names.
Qed.

(** A payload that cannot be iterated makes [parseProm] throw, after the
    clock has been read. *)
Lemma parseProm_not_iterable data w e :
  iterate data = Throw e ->
  parseProm data w = (Throw e, snd (Date_now w)).
Proof. intros H. unfold parseProm. cbn [Date_now snd]. now rewrite H. Qed.

(** A payload that is not a string makes [extractWord] throw at once. *)
Lemma extractWord_not_text mode data w :
  (forall s, data <> JStr s) ->
  extractWord mode data w = (Throw TypeError, w).
Proof. intros H. destruct data; try reflexivity. now destruct (H s). Qed.

(** ** Examples *)

Example text_line :
  fst (extractWord (JStr "kafka")
         (JStr "kafka_server_BrokerTopicMetrics_OneMinuteRate 12.5") sample_world)
  = Ok [record_of "kafka_server_BrokerTopicMetrics_OneMinuteRate"
          (literal "12.5") 1700000000000].
Proof. vm_compute. reflexivity. Qed.

Example structured_duplicates :
  fst (parseProm
         (JArr [requests_total [("code", JStr "200")] (sample "7");
                requests_total [("code", JStr "500")] (sample "9")])
         sample_world)
  = Ok [record_of "api/10.0.0.1:9090/http_requests_total" (JStr "7")
          1700000000000].
Proof. vm_compute. reflexivity. Qed.

Example numbers_print_shortest :
  map (fun s => Number_toString (StringToNumber s))
      ["12.5"; "3.14"; "0.1"; "1e21"; "1e23"; "0.000001"; "1e-7"; "-0"; "0x1F"]
  = ["12.5"; "3.14"; "0.1"; "1e+21"; "1e+23"; "0.000001"; "1e-7"; "0"; "31"].
Proof. vm_compute. reflexivity. Qed.

(** ** The claims *)




(** C2 (as amended).  When the payload cannot be decoded by the active
    parser (the parser throws), the query reports the failure with one call
    of [console.error] and settles with [undefined]: it returns no records,
    and no empty array either. *)
Theorem decode_failure_settles_undefined (config : jsval) (w : World) (URI : jsval) :
  getMetricsURI config = Ok URI ->
  (forall address response payload e w1,
      ToString URI = Ok address ->
      axios_get w (JStr (address ++ encodeURIComponent all_metrics)) = Ok response ->
      (let? body := Get response "data" in
       let? data := Get body "data" in
       Get data "result") = Ok payload ->
      parseProm payload w = (Throw e, w1) ->
      promMetricsQuery config w =
        (Ok Undefined, console_error (FetchError (mode_of config) URI e) w1)) /\
  (forall response payload,
      axios_get w URI = Ok response ->
      Get response "data" = Ok payload ->
      (forall s, payload <> JStr s) ->
      kafkaMetricsQuery config w =
        (Ok Undefined, console_error (FetchError (mode_of config) URI TypeError) w)).
Proof.
  intros HURI. split.
  - intros address response payload e w1 Haddress Hget Hpayload Hparse.
    unfold promMetricsQuery. rewrite HURI, Haddress, Hget, Hpayload, Hparse.
    reflexivity.
  - intros response payload Hget Hpayload Hshape.
    unfold kafkaMetricsQuery. rewrite HURI, Hget, Hpayload.
    rewrite extractWord_not_text by assumption. reflexivity.
Qed.

Lemma decode_failure_settles_undefined_witness :
  promMetricsQuery kubernetes_config
    (answering (JObj [("data", JObj [("result", literal "5")])]) sample_world)
  = (Ok Undefined,
     console_error
       (FetchError (JStr "kubernetes")
          (JStr "http://prometheus:9090/api/v1/query?query=") TypeError)
       (snd (Date_now
          (answering (JObj [("data", JObj [("result", literal "5")])])
             sample_world))))
  /\
  kafkaMetricsQuery kafka_config (answering (literal "5") sample_world)
  = (Ok Undefined,
     console_error
       (FetchError (JStr "kafka") (JStr "http://localhost:12345/metrics") TypeError)
       (answering (literal "5") sample_world)).
Proof.
  split.
  - apply (proj1 (decode_failure_settles_undefined kubernetes_config
                    (answering (JObj [("data", JObj [("result", literal "5")])])
                       sample_world)
                    (JStr "http://prometheus:9090/api/v1/query?query=")
                    eq_refl)
             "http://prometheus:9090/api/v1/query?query="
             (JObj [("status", literal "200");
                    ("data", JObj [("data", JObj [("result", literal "5")])])])
             (literal "5") TypeError);
      reflexivity.
  - apply (proj2 (decode_failure_settles_undefined kafka_config
                    (answering (literal "5") sample_world)
                    (JStr "http://localhost:12345/metrics") eq_refl)
             (JObj [("status", literal "200"); ("data", literal "5")])
             (literal "5"));
      [reflexivity | reflexivity | discriminate].
Defined.

(** C2 (as stated) fails: structured mode given the number 5 as its payload
    settles with [undefined], which is not the empty batch. *)
Lemma decode_failure_is_not_empty_batch :
  fst (promMetricsQuery kubernetes_config
         (answering (JObj [("data", JObj [("result", literal "5")])]) sample_world))
  = Ok Undefined
  /\
  fst (promMetricsQuery kubernetes_config
         (answering (JObj [("data", JObj [("result", literal "5")])]) sample_world))
  <> Ok (Batch []).
Proof. split; [vm_compute; reflexivity | vm_compute; discriminate]. Qed.






(** C5.  Every invocation of either parser that returns a batch has read
    the clock exactly once, and every record of the batch carries that
    reading as its [time]. *)
Theorem batch_time_read_once
    (i : invocation) (w : World) (res : list MetricRecord) (w' : World) :
  invoke i w = (Ok res, w') ->
  ticks w' = S (ticks w) /\
  Forall (fun r => time r = clock w (ticks w)) res.
Proof.
  destruct i as [mode text | data]; cbn [invoke]; intros H.
  - apply extractWord_batch in H as [Hticks Hres]. split; [exact Hticks|].
    eapply Forall_impl; [exact Hres|]. now intros r [Hr _].
  - apply parseProm_returned in H as (entries & names & _ & Hloop & ->).
    split; [reflexivity|].
    apply parseProm_loop_invariant in Hloop; [|apply batch_invariant_start].
    destruct Hloop as (Hwf & _). cbn [fst] in Hwf.
    eapply Forall_impl; [exact Hwf|]. now intros r [Hr _].
Qed.

Lemma batch_time_read_once_witness :
  ticks (snd (invoke (StructuredMode
                        (JArr [requests_total [] (sample "7");
                               entry "db" "10.0.0.2:9100" "up" [] (sample "1")]))
                sample_world))
  = S (ticks sample_world)
  /\ Forall (fun r => time r = clock sample_world (ticks sample_world))
       [record_of "api/10.0.0.1:9090/http_requests_total" (JStr "7") 1700000000000;
        record_of "db/10.0.0.2:9100/up" (JStr "1") 1700000000000].
Proof.
  apply (batch_time_read_once
           (StructuredMode
              (JArr [requests_total [] (sample "7");
                     entry "db" "10.0.0.2:9100" "up" [] (sample "1")]))
           sample_world).
  vm_compute. reflexivity.
Defined.

(** C6.  In both modes no record of a returned batch has a NaN value: the
    value of every record coerces to a number other than NaN, and is
    neither the number NaN nor the string ["NaN"]. *)
Theorem batch_has_no_NaN
    (i : invocation) (w : World) (res : list MetricRecord) (w' : World) :
  invoke i w = (Ok res, w') ->
  Forall (fun r => isNaN (value r) = Ok false /\
                   value r <> JNum NaN /\ value r <> JStr "NaN") res.
Proof.
  destruct i as [mode text | data]; cbn [invoke]; intros H.
  - apply extractWord_batch in H as [_ Hres].
    eapply Forall_impl; [exact Hres|].
    intros r (_ & n & -> & Hn). unfold isNaN. cbn [ToNumber rbind].
    rewrite Hn. repeat split; [intros [= ->] | intros [=]]. discriminate Hn.
  - apply parseProm_returned in H as (entries & names & _ & Hloop & _).
    apply parseProm_loop_invariant in Hloop; [|apply batch_invariant_start].
    destruct Hloop as (Hwf & _). cbn [fst] in Hwf.
    eapply Forall_impl; [exact Hwf|].
    intros r (_ & Hnan & Hstr). repeat split; [exact Hnan | | exact Hstr].
    intros Heq. rewrite Heq in Hnan. discriminate Hnan.
Qed.

Lemma batch_has_no_NaN_witness :
  Forall (fun r => isNaN (value r) = Ok false /\
                   value r <> JNum NaN /\ value r <> JStr "NaN")
    [record_of "up" (literal "1") 1700000000000].
Proof.
  apply (batch_has_no_NaN
           (TextMode (JStr "kafka")
              (JStr ("up 1" ++ String newline "down NaN" ++ String newline "bad x")))
           sample_world _
           (console_error (InvalidMetric "bad x")
              (console_error (InvalidMetric "down NaN")
                 (snd (Date_now sample_world))))).
  vm_compute. reflexivity.
Defined.

(** C7.  In text mode an empty line and a line whose first character is
    [#] produce no record (and no diagnostic); so does, in [kafka] mode, a
    line whose first three characters are [jmx] or whose first four are
    ['jmx]; in any other mode the prefix test suppresses nothing, and such
    a line goes on to the parse. *)
Theorem discarded_lines
    (mode : jsval) (t : Z) (st : list MetricRecord * World) (element : string) :
  (blank element \/ comment element -> extractWord_body mode t st element = st) /\
  (suppressed_prefix mode element -> extractWord_body mode t st element = st) /\
  (mode <> JStr "kafka" -> ~ blank element -> ~ comment element ->
   extractWord_body mode t st element = extractWord_parse t st element).
Proof.
  split; [|split].
  - apply body_blank_or_comment.
  - apply body_suppressed.
  - apply body_other_mode.
Qed.

Lemma discarded_lines_witness :
  extractWord_body (JStr "kafka") 0 ([], sample_world) "# HELP kafka_server"
  = ([], sample_world)
  /\ extractWord_body (JStr "kafka") 0 ([], sample_world)
       "jmx_scrape_duration_seconds 0.01"
     = ([], sample_world)
  /\ extractWord_body (JStr "kubernetes") 0 ([], sample_world)
       "jmx_scrape_duration_seconds 0.01"
     = extractWord_parse 0 ([], sample_world) "jmx_scrape_duration_seconds 0.01".
Proof.
  split; [|split].
  - apply (proj1 (discarded_lines (JStr "kafka") 0 ([], sample_world)
                    "# HELP kafka_server")).
    right. now exists " HELP kafka_server".
  - apply (proj1 (proj2 (discarded_lines (JStr "kafka") 0 ([], sample_world)
                           "jmx_scrape_duration_seconds 0.01"))).
    split; [reflexivity | now left].
  - apply (proj2 (proj2 (discarded_lines (JStr "kubernetes") 0 ([], sample_world)
                           "jmx_scrape_duration_seconds 0.01")));
      [discriminate | discriminate | intros [rest H]; discriminate H].
Defined.

Example prefix_kept_outside_kafka :
  fst (extractWord (JStr "kubernetes") (JStr "jmx_scrape_duration_seconds 0.01")
         sample_world)
  = Ok [record_of "jmx_scrape_duration_seconds" (literal "0.01") 1700000000000].
Proof. vm_compute. reflexivity. Qed.

(** C8.  For every mode other than [kafka] and [kubernetes], the modes that
    select a pipeline, [getMetricsURI] throws [Error('Unrecognized mode')];
    both queries fail with that error at once, before any request is made
    and without touching the console. *)
Theorem unrecognized_mode_throws (config mode : jsval) :
  Get config "mode" = Ok mode ->
  mode <> JStr "kafka" ->
  mode <> JStr "kubernetes" ->
  getMetricsURI config = Throw (Error "Unrecognized mode") /\
  forall w,
    kafkaMetricsQuery config w = (Throw (Error "Unrecognized mode"), w) /\
    promMetricsQuery config w = (Throw (Error "Unrecognized mode"), w).
Proof.
  intros Hmode Hkafka Hkube.
  assert (H : getMetricsURI config = Throw (Error "Unrecognized mode")).
  { unfold getMetricsURI. rewrite Hmode. cbn [rbind].
    now rewrite !strict_eq_string_false. }
  split; [exact H|]. intros w.
  unfold kafkaMetricsQuery, promMetricsQuery. now rewrite H.
Qed.

Lemma unrecognized_mode_throws_witness :
  getMetricsURI (JObj [("mode", JStr "microservices")])
  = Throw (Error "Unrecognized mode") /\
  forall w,
    kafkaMetricsQuery (JObj [("mode", JStr "microservices")]) w
    = (Throw (Error "Unrecognized mode"), w) /\
    promMetricsQuery (JObj [("mode", JStr "microservices")]) w
    = (Throw (Error "Unrecognized mode"), w).
Proof.
  apply (unrecognized_mode_throws (JObj [("mode", JStr "microservices")])
           (JStr "microservices"));
    [reflexivity | discriminate | discriminate].
Defined.

(** C9 (as amended).  In text mode, for a surviving line that contains no
    space the last-space index is [-1]; the metric is then the line without
    its final character and the candidate value is the whole line.  When
    [Number(line)] is not NaN the loop pushes that record; when it is NaN
    the line is rejected with a diagnostic, as any other line is. *)
Theorem line_without_space
    (mode : jsval) (t : Z) (res : list MetricRecord) (w : World)
    (line : string) :
  surviving mode line ->
  contains " " line = false ->
  lastIndexOf line " " = -1 /\
  extractWord_body mode t (res, w) line =
    if is_NaN (StringToNumber line)
    then (res, console_error (InvalidMetric line) w)
    else ((res ++ [record_of (drop_last line) (JNum (StringToNumber line)) t])%list, w).
Proof.
  intros Hline Hspace.
  destruct (no_space_cut line (proj1 Hline) Hspace) as (Hlast & Hmetric & Hvalue).
  split; [exact Hlast|].
  rewrite body_surviving by assumption.
  unfold extractWord_parse. rewrite Hlast, Hmetric, Hvalue.
  now destruct (is_NaN (StringToNumber line)).
Qed.

Lemma line_without_space_witness :
  lastIndexOf "42" " " = -1 /\
  extractWord_body (JStr "kafka") 0 ([], sample_world) "42"
  = ([] ++ [record_of "4" (JNum (StringToNumber "42")) 0], sample_world)%list.
Proof.
  apply (line_without_space (JStr "kafka") 0 [] sample_world "42");
    [surviving_line | reflexivity].
Defined.

(** C9 (as stated) fails: the line ["abc"] survives the filters and contains
    no space, yet it is rejected: no record, one diagnostic. *)
Lemma line_without_space_rejected :
  surviving (JStr "kafka") "abc" /\
  contains " " "abc" = false /\
  extractWord (JStr "kafka") (JStr "abc") sample_world
  = (Ok [], console_error (InvalidMetric "abc") (snd (Date_now sample_world))).
Proof. split; [surviving_line | split; reflexivity]. Qed.

(** C10.  In structured mode an entry whose [metric] object has a [job]
    field with a falsy value is skipped, state unchanged, exactly as an
    entry whose [metric] object has no [job] field: the test is on the
    truthiness of the value, and the batch is the one obtained without the
    entry. *)
Theorem falsy_job_skipped
    (t : Z) (st : list MetricRecord * gset string)
    (info : jsval) (fields : list (string * jsval)) (job : jsval) :
  Get info "metric" = Ok (JObj fields) ->
  lookup_field "job" fields = Some job ->
  ToBoolean job = false ->
  parseProm_body t st info = Ok st /\
  (forall info' fields',
      Get info' "metric" = Ok (JObj fields') ->
      lookup_field "job" fields' = None ->
      parseProm_body t st info' = parseProm_body t st info) /\
  (forall before after st0,
      parseProm_loop t (before ++ info :: after) st0 =
      parseProm_loop t (before ++ after) st0).
Proof.
  intros Hmetric Hfield Hfalsy.
  assert (Hskip : forall s, parseProm_body t s info = Ok s).
  { intros s. eapply body_skips_no_job.
    - unfold labels_of. rewrite Hmetric. cbn [rbind Get]. reflexivity.
    - cbn [fst]. now rewrite Hfield. }
  split; [apply Hskip | split].
  - intros info' fields' Hmetric' Habsent. rewrite Hskip.
    eapply body_skips_no_job.
    + unfold labels_of. rewrite Hmetric'. cbn [rbind Get]. reflexivity.
    + cbn [fst]. now rewrite Habsent.
  - intros before after st0. rewrite !parseProm_loop_app.
    destruct (parseProm_loop t before st0) as [st1|]; cbn [rbind]; [|reflexivity].
    cbn [parseProm_loop]. now rewrite Hskip.
Qed.

Lemma falsy_job_skipped_witness :
  parseProm_body 0 ([], ∅) (entry "" "10.0.0.1:9090" "up" [] (sample "1"))
  = Ok ([], ∅).
Proof.
  apply (falsy_job_skipped 0 ([], ∅)
           (entry "" "10.0.0.1:9090" "up" [] (sample "1"))
           [("__name__", JStr "up"); ("instance", JStr "10.0.0.1:9090");
            ("job", JStr "")]
           (JStr ""));
    reflexivity.
Defined.

Example falsy_jobs_yield_nothing :
  fst (parseProm
         (JArr [entry "" "10.0.0.1:9090" "up" [] (sample "1");
                JObj [("metric", JObj [("__name__", JStr "up"); ("job", literal "0")]);
                      ("value", sample "1")];
                JObj [("metric", JObj [("__name__", JStr "up")]);
                      ("value", sample "1")]])
         sample_world)
  = Ok [].
Proof. vm_compute. reflexivity. Qed.

(** * Further properties *)

(** ** Objects: reading after writing *)

Lemma lookup_set_field_eq k v fields :
  lookup_field k (set_field k v fields) = Some v.
Proof.
  induction fields as [|[k' x] fields IH]; cbn [set_field lookup_field].
  - now rewrite String.eqb_refl.
  - destruct (String.eqb k k') eqn:E; cbn [lookup_field]; rewrite E;
      [reflexivity | exact IH].
Qed.

Lemma lookup_set_field_ne k k' v fields :
  k <> k' -> lookup_field k' (set_field k v fields) = lookup_field k' fields.
Proof.
  intros Hne.
  assert (Hswap : String.eqb k' k = false).
  { apply String.eqb_neq. congruence. }
  induction fields as [|[k0 x] fields IH]; cbn [set_field lookup_field].
  - now rewrite Hswap.
  - destruct (String.eqb_spec k k0) as [<- | Hk]; cbn [lookup_field].
    + now rewrite Hswap.
    + now rewrite IH.
Qed.

Lemma Get_SetProp_ne o k k' v :
  k <> k' -> Get (SetProp o k v) k' = Get o k'.
Proof.
  intros Hne. destruct o; try reflexivity.
  cbn [SetProp Get]. now rewrite lookup_set_field_ne.
Qed.

Lemma Get_SetProp_eq fields k v :
  Get (SetProp (JObj fields) k v) k = Ok v.
Proof. cbn [SetProp Get]. now rewrite lookup_set_field_eq. Qed.

(** Only an object answers a property read with something else than
    [undefined]. *)
Lemma Get_defined v k x :
  Get v k = Ok x -> x <> JUndefined -> exists fields, v = JObj fields.
Proof.
  destruct v; cbn [Get]; intros [= <-] Hx; try (now destruct Hx).
  now eexists.
Qed.

Lemma truthy_string_spec v :
  negb (ToBoolean v) || type_is_not "string" v = false <->
  exists s, v = JStr s /\ s <> EmptyString.
Proof.
  split.
  - destruct v as [| |b|n|s|l|f]; try discriminate.
    + destruct b; discriminate.
    + destruct n; discriminate.
    + destruct s; [discriminate|]. intros _. eexists. split; [reflexivity | discriminate].
  - intros (s & -> & Hs). destruct s; [now destruct Hs | reflexivity].
Qed.

Lemma truthy_number_spec v :
  negb (ToBoolean v) || type_is_not "number" v = false <->
  exists n, v = JNum n /\ ToBoolean (JNum n) = true.
Proof.
  split.
  - destruct v as [| |b|n|s|l|f]; try discriminate.
    + destruct b; discriminate.
    + intros H. exists n. split; [reflexivity|].
      destruct (ToBoolean (JNum n)); [reflexivity | discriminate H].
    + destruct s; discriminate.
  - intros (n & -> & Hn). unfold type_is_not. rewrite Hn. reflexivity.
Qed.

Lemma includes_spec l v :
  includes l v = true <-> exists s, v = JStr s /\ In s l.
Proof.
  unfold includes. rewrite existsb_exists. split.
  - intros (s & Hs & Heq). apply strict_eq_string_spec in Heq. now exists s.
  - intros (s & -> & Hs). exists s. split; [exact Hs|].
    now apply strict_eq_string_spec.
Qed.

(** ** [validateInput] *)

(** The checks pass on the valid configurations and on no other. *)
Lemma validateInput_checks_spec config interval dockerized :
  validateInput_checks config = Ok (interval, dockerized) <->
  valid_config config /\
  Get config "interval" = Ok interval /\
  Get config "dockerized" = Ok dockerized.
Proof.
  unfold validateInput_checks. split.
  - intros H.
    destruct (Get config "microservice") as [microservice|] eqn:Hms;
      cbn [rbind] in H; [|discriminate H].
    destruct (Get config "database") as [database|] eqn:Hdb;
      cbn [rbind] in H; [|discriminate H].
    destruct (Get config "interval") as [i|] eqn:Hi;
      cbn [rbind] in H; [|discriminate H].
    destruct (Get config "dockerized") as [d|] eqn:Hd;
      cbn [rbind] in H; [|discriminate H].
    destruct (Get config "jmxuri") as [jmxuri|] eqn:Hjmx;
      cbn [rbind] in H; [|discriminate H].
    destruct (Get config "mode") as [mode|] eqn:Hmode;
      cbn [rbind] in H; [|discriminate H].
    destruct (Get config "promService") as [promService|] eqn:Hsvc;
      cbn [rbind] in H; [|discriminate H].
    destruct (Get config "promPort") as [promPort|] eqn:Hport;
      cbn [rbind] in H; [|discriminate H].
    destruct (negb (ToBoolean microservice) || _) eqn:C1;
      cbn [throw_when rbind] in H; [discriminate H|].
    destruct (Get database "type") as [type|] eqn:Htype;
      cbn [rbind] in H; [|discriminate H].
    destruct (negb (ToBoolean type) || _) eqn:C2;
      cbn [throw_when rbind] in H; [discriminate H|].
    destruct (Get database "URI") as [URI|] eqn:HURI;
      cbn [rbind] in H; [|discriminate H].
    destruct (negb (ToBoolean URI) || _) eqn:C3;
      cbn [throw_when rbind] in H; [discriminate H|].
    destruct (Get database "connection") as [connection|] eqn:Hconn;
      cbn [rbind] in H; [|discriminate H].
    destruct (negb (ToBoolean connection) || _) eqn:C4;
      cbn [throw_when rbind] in H; [discriminate H|].
    destruct (negb (ToBoolean mode) || _) eqn:C5;
      cbn [throw_when rbind] in H; [discriminate H|].
    destruct (strict_eq_string mode "kafka" && ToBoolean jmxuri && _) eqn:C6;
      cbn [throw_when rbind] in H; [discriminate H|].
    apply truthy_string_spec in C1 as (name & -> & Hname).
    apply truthy_string_spec in C2 as (ty & -> & Hty).
    apply truthy_string_spec in C3 as (uri & -> & Huri).
    apply truthy_string_spec in C4 as (cn & -> & Hcn).
    apply orb_false_iff in C5 as [_ C5]. apply negb_false_iff in C5.
    apply includes_spec in C5 as (md & -> & Hmd).
    assert (Hkube : md = "kubernetes" ->
              exists service port,
                promService = JStr service /\ service <> EmptyString /\
                promPort = JNum port /\ ToBoolean (JNum port) = true).
    { intros ->. cbn [strict_eq_string] in H.
      replace (String.eqb "kubernetes" "kubernetes") with true in H by reflexivity.
      destruct (negb (ToBoolean promService) || type_is_not "string" promService
                || negb (ToBoolean promPort) || type_is_not "number" promPort)
        eqn:C7; cbn [throw_when rbind] in H; [discriminate H|].
      apply orb_false_iff in C7 as [C7 C7d].
      apply orb_false_iff in C7 as [C7 C7c].
      assert (C7p : negb (ToBoolean promPort) || type_is_not "number" promPort
                    = false) by now rewrite C7c, C7d.
      apply truthy_string_spec in C7 as (service & -> & Hservice).
      apply truthy_number_spec in C7p as (port & -> & Hport').
      now exists service, port. }
    assert (Htail :
      (if negb (strict_eq_string (JStr ty) "PostgreSQL") &&
          negb (strict_eq_string (JStr ty) "MongoDB")
       then false else true) = true /\
      (if negb (strict_eq_string (JStr cn) "REST") &&
          negb (strict_eq_string (JStr cn) "gRPC")
       then false else true) = true /\ i = interval /\ d = dockerized).
    { destruct (if strict_eq_string (JStr md) "kubernetes" then _ else _);
        cbn [rbind] in H; [|discriminate H].
      destruct (negb (strict_eq_string (JStr ty) "PostgreSQL") && _);
        cbn [rbind ToString] in H; [discriminate H|].
      destruct (negb (strict_eq_string (JStr cn) "REST") && _);
        cbn [rbind ToString] in H; [discriminate H|].
      injection H as -> ->. now repeat split. }
    destruct Htail as (Hty' & Hcn' & -> & ->).
    repeat split.
    + now exists name.
    + exists database. split; [exact Hdb|]. exists ty, uri, cn.
      repeat split; try assumption.
      * cbn [strict_eq_string] in Hty'.
        destruct (String.eqb_spec ty "PostgreSQL"); [now left|].
        destruct (String.eqb_spec ty "MongoDB"); [now right | discriminate Hty'].
      * cbn [strict_eq_string] in Hcn'.
        destruct (String.eqb_spec cn "REST"); [now left|].
        destruct (String.eqb_spec cn "gRPC"); [now right | discriminate Hcn'].
    + exists md. split; [exact Hmode|]. repeat split; [exact Hmd | |].
      * intros ->. exists jmxuri. split; [exact Hjmx|].
        cbn [strict_eq_string] in C6.
        replace (String.eqb "kafka" "kafka") with true in C6 by reflexivity.
        cbn [andb] in C6.
        destruct (ToBoolean jmxuri); [|now left]. right.
        destruct jmxuri; try discriminate C6. now eexists.
      * intros Hmode'. destruct (Hkube Hmode') as (service & port & -> & ? & -> & ?).
        exists service, port. now repeat split.
  - intros ((Hms & Hdb & Hmode) & Hi & Hd).
    destruct Hms as (name & Hms & Hname).
    destruct Hdb as (db & Hdb & ty & uri & cn & Hty & Hty' & Huri & Huri' & Hcn & Hcn').
    destruct Hmode as (md & Hmode & Hmd & Hkafka & Hkube).
    assert (Hobj : exists fields, config = JObj fields).
    { apply (Get_defined _ _ _ Hms). discriminate. }
    destruct Hobj as [fields ->].
    rewrite Hms, Hdb, Hi, Hd, Hmode. cbn [Get rbind].
    rewrite (proj2 (truthy_string_spec (JStr name))) by now exists name.
    cbn [throw_when rbind]. rewrite Hty. cbn [rbind].
    rewrite (proj2 (truthy_string_spec (JStr ty)))
      by (exists ty; split; [reflexivity | destruct Hty' as [-> | ->]; discriminate]).
    cbn [throw_when rbind]. rewrite Huri. cbn [rbind].
    rewrite (proj2 (truthy_string_spec (JStr uri))) by now exists uri.
    cbn [throw_when rbind]. rewrite Hcn. cbn [rbind].
    rewrite (proj2 (truthy_string_spec (JStr cn)))
      by (exists cn; split; [reflexivity | destruct Hcn' as [-> | ->]; discriminate]).
    cbn [throw_when rbind].
    assert (Hmd' : negb (ToBoolean (JStr md)) || negb (includes modeTypes (JStr md))
                   = false).
    { rewrite (proj2 (includes_spec modeTypes (JStr md))) by now exists md.
      destruct md; [|reflexivity]. now repeat destruct Hmd as [Hmd | Hmd]. }
    rewrite Hmd'. cbn [throw_when rbind].
    assert (Hthree : md = "kafka" \/ md = "kubernetes" \/ md = "microservices").
    { cbn in Hmd. intuition congruence. }
    assert (Htail :
      (let? _ := if negb (strict_eq_string (JStr ty) "PostgreSQL") &&
                    negb (strict_eq_string (JStr ty) "MongoDB")
                 then let? text := ToString (JStr ty) in
                      Throw (Error ("Invalid input " ++ quote ++ text ++ quote ++
                                    ". Chronos only supports PostgreSQL and MongoDB."))
                 else Ok tt in
       let? _ := if negb (strict_eq_string (JStr cn) "REST") &&
                    negb (strict_eq_string (JStr cn) "gRPC")
                 then let? text := ToString (JStr cn) in
                      Throw (Error ("Invalid database connection " ++ quote ++ text
                                    ++ quote ++ ". Chronos only supports REST and gRPC."))
                 else Ok tt in
       Ok (interval, dockerized)) = Ok (interval, dockerized)).
    { destruct Hty' as [-> | ->]; destruct Hcn' as [-> | ->]; reflexivity. }
    destruct Hthree as [-> | [-> | ->]].
    + destruct (Hkafka eq_refl) as (jmxuri & Hjmx & Hshape).
      cbn [Get] in Hjmx. injection Hjmx as Hjmx. rewrite Hjmx.
      replace (strict_eq_string (JStr "kafka") "kafka" && ToBoolean jmxuri &&
               type_is_not "string" jmxuri) with false
        by (destruct Hshape as [-> | [s ->]];
            [reflexivity | now rewrite andb_false_r]).
      cbn [throw_when rbind]. exact Htail.
    + destruct (Hkube eq_refl) as (service & port & Hsvc & Hservice & Hport & Htruthy).
      cbn [Get] in Hsvc, Hport. injection Hsvc as Hsvc. injection Hport as Hport.
      rewrite Hsvc, Hport.
      replace (strict_eq_string (JStr "kubernetes") "kafka") with false by reflexivity.
      cbn [andb throw_when rbind].
      replace (strict_eq_string (JStr "kubernetes") "kubernetes") with true
        by reflexivity.
      rewrite (proj2 (truthy_string_spec (JStr service))) by now exists service.
      cbn [orb].
      rewrite (proj2 (truthy_number_spec (JNum port))) by now exists port.
      cbn [throw_when rbind]. exact Htail.
    + replace (strict_eq_string (JStr "microservices") "kafka") with false
        by reflexivity.
      cbn [andb throw_when rbind]. exact Htail.
Qed.

(** What a returning call has done: the checks passed, the object returned
    is the object given, with the two defaults filled in and no other field
    touched. *)
Lemma validateInput_returned config config' after :
  validateInput config = (Ok config', after) ->
  exists interval dockerized dockerized',
    validateInput_checks config = Ok (interval, dockerized) /\
    after = config' /\
    (forall k, k <> "interval" -> k <> "dockerized" ->
               Get config' k = Get config k) /\
    Get config' "interval" =
      Ok (if negb (ToBoolean interval) || type_is_not "number" interval
          then JNum one_minute else interval) /\
    Get config' "dockerized" = Ok dockerized' /\
    constructor_name dockerized' = Ok (JStr "Boolean") /\
    (dockerized' = dockerized \/
     dockerized' = JBool false /\
     constructor_name dockerized <> Ok (JStr "Boolean")).
Proof.
  unfold validateInput.
  destruct (validateInput_checks config) as [[interval dockerized]|] eqn:Hchecks;
    [|discriminate].
  pose proof (proj1 (validateInput_checks_spec _ _ _) Hchecks)
    as (((name & Hms & _) & _) & Hi & Hd).
  destruct (Get_defined _ _ _ Hms) as [fields ->]; [discriminate|].
  set (config1 := if negb (ToBoolean interval) || type_is_not "number" interval
                  then SetProp (JObj fields) "interval" (JNum one_minute)
                  else JObj fields).
  assert (H1 : forall k, k <> "interval" -> Get config1 k = Get (JObj fields) k).
  { intros k Hk. subst config1. destruct (negb _ || _); [|reflexivity].
    apply Get_SetProp_ne. congruence. }
  assert (H1i : Get config1 "interval" =
                Ok (if negb (ToBoolean interval) || type_is_not "number" interval
                    then JNum one_minute else interval)).
  { subst config1. destruct (negb _ || _); [apply Get_SetProp_eq | exact Hi]. }
  assert (Hobj1 : exists fields1, config1 = JObj fields1).
  { subst config1. destruct (negb _ || _); now eexists. }
  destruct Hobj1 as [fields1 Hobj1].
  assert (Hset :
    (Ok (SetProp config1 "dockerized" (JBool false)),
     SetProp config1 "dockerized" (JBool false)) = (Ok config', after) ->
    constructor_name dockerized <> Ok (JStr "Boolean") ->
    exists interval0 dockerized0 dockerized',
      Ok (interval, dockerized) = Ok (interval0, dockerized0) /\
      after = config' /\
      (forall k, k <> "interval" -> k <> "dockerized" ->
                 Get config' k = Get (JObj fields) k) /\
      Get config' "interval" =
        Ok (if negb (ToBoolean interval0) || type_is_not "number" interval0
            then JNum one_minute else interval0) /\
      Get config' "dockerized" = Ok dockerized' /\
      constructor_name dockerized' = Ok (JStr "Boolean") /\
      (dockerized' = dockerized0 \/
       dockerized' = JBool false /\
       constructor_name dockerized0 <> Ok (JStr "Boolean"))).
  { intros [= <- <-] Hname.
    exists interval, dockerized, (JBool false).
    repeat split; try reflexivity.
    - intros k Hk1 Hk2. rewrite Get_SetProp_ne by congruence. now apply H1.
    - rewrite Get_SetProp_ne by discriminate. exact H1i.
    - rewrite Hobj1. apply Get_SetProp_eq.
    - right. now split. }
  assert (Hrest :
    match constructor_name dockerized with
    | Throw e => (Throw e, config1)
    | Ok name0 =>
        if negb (strict_eq_string name0 "Boolean")
        then (Ok (SetProp config1 "dockerized" (JBool false)),
              SetProp config1 "dockerized" (JBool false))
        else (Ok config1, config1)
    end = (Ok config', after) ->
    exists interval0 dockerized0 dockerized',
      Ok (interval, dockerized) = Ok (interval0, dockerized0) /\
      after = config' /\
      (forall k, k <> "interval" -> k <> "dockerized" ->
                 Get config' k = Get (JObj fields) k) /\
      Get config' "interval" =
        Ok (if negb (ToBoolean interval0) || type_is_not "number" interval0
            then JNum one_minute else interval0) /\
      Get config' "dockerized" = Ok dockerized' /\
      constructor_name dockerized' = Ok (JStr "Boolean") /\
      (dockerized' = dockerized0 \/
       dockerized' = JBool false /\
       constructor_name dockerized0 <> Ok (JStr "Boolean"))).
  { destruct (constructor_name dockerized) as [ctor|] eqn:Hctor; [|discriminate].
    destruct (strict_eq_string ctor "Boolean") eqn:Hbool; cbn [negb].
    - apply strict_eq_string_spec in Hbool as ->.
      intros [= <- <-]. exists interval, dockerized, dockerized.
      repeat split; try reflexivity; try assumption.
      + intros k Hk1 Hk2. now apply H1.
      + rewrite H1 by discriminate. exact Hd.
      + now left.
    - intros H. apply (Hset H). intros [= ->]. discriminate Hbool. }
  destruct dockerized as [| |b|n|s|l|f]; try exact Hrest.
  intros H. apply (Hset H). cbn. discriminate.
Qed.

Lemma valid_config_frame config config' :
  (forall k, k <> "interval" -> k <> "dockerized" ->
             Get config' k = Get config k) ->
  valid_config config -> valid_config config'.
Proof.
  intros Hframe ((name & Hms & Hname) & (db & Hdb & Hvalid) &
                 (mode & Hmode & Hin & Hkafka & Hkube)).
  repeat split.
  - exists name. now rewrite Hframe by discriminate.
  - exists db. now rewrite Hframe by discriminate.
  - exists mode. rewrite Hframe by discriminate. repeat split; try assumption.
    + intros Hm. destruct (Hkafka Hm) as (jmxuri & Hj & Hshape).
      exists jmxuri. now rewrite Hframe by discriminate.
    + intros Hm. destruct (Hkube Hm) as (service & port & Hs & Hne & Hp & Ht).
      exists service, port. now rewrite !Hframe by discriminate.
Qed.

(** X1.  A configuration that [validateInput] returns passes every check:
    a non-empty [microservice], a database of a supported type and
    connection with a non-empty URI, one of the three modes with the fields
    that mode needs, a truthy numeric [interval] and a [dockerized] built by
    [Boolean]; and the object returned is the object that was given. *)
Theorem validated_config_is_valid (config config' after : jsval) :
  validateInput config = (Ok config', after) ->
  after = config' /\
  valid_config config' /\
  (exists n, Get config' "interval" = Ok (JNum n) /\ ToBoolean (JNum n) = true) /\
  (exists d, Get config' "dockerized" = Ok d /\
             constructor_name d = Ok (JStr "Boolean")).
Proof.
  intros (interval & dockerized & dockerized' & Hchecks & Hafter & Hframe &
          Hi & Hd & Hctor & _)%validateInput_returned.
  apply validateInput_checks_spec in Hchecks as (Hvalid & _ & _).
  split; [assumption|].
  split; [now apply (valid_config_frame config)|]. split.
  - destruct (negb (ToBoolean interval) || type_is_not "number" interval) eqn:E.
    + exists one_minute. now split.
    + apply truthy_number_spec in E as (n & -> & Hn). now exists n.
  - now exists dockerized'.
Qed.

Lemma validated_config_is_valid_witness :
  valid_config
    (books_config "microservices"
       [("interval", JNum one_minute); ("dockerized", JBool false)]).
Proof.
  apply (validated_config_is_valid (books_config "microservices" []) _ _ eq_refl).
Defined.

(** X2.  [validateInput] is idempotent: validating a configuration it has
    returned returns it again, unchanged. *)
Theorem validateInput_idempotent (config config' after : jsval) :
  validateInput config = (Ok config', after) ->
  validateInput config' = (Ok config', config').
Proof.
  intros H.
  pose proof (validateInput_returned _ _ _ H)
    as (interval & dockerized & dockerized' & Hchecks & _ & Hframe &
        Hi & Hd & Hctor & _).
  apply validateInput_checks_spec in Hchecks as (Hvalid & _ & _).
  assert (Hchecks' : validateInput_checks config' =
                     Ok (if negb (ToBoolean interval) ||
                            type_is_not "number" interval
                         then JNum one_minute else interval, dockerized')).
  { apply validateInput_checks_spec.
    split; [now apply (valid_config_frame config) | now split]. }
  unfold validateInput. rewrite Hchecks'.
  assert (Hkeep : negb (ToBoolean (if negb (ToBoolean interval) ||
                                      type_is_not "number" interval
                                   then JNum one_minute else interval)) ||
                  type_is_not "number" (if negb (ToBoolean interval) ||
                                           type_is_not "number" interval
                                        then JNum one_minute else interval)
                  = false).
  { destruct (negb (ToBoolean interval) || type_is_not "number" interval) eqn:E;
      [reflexivity | exact E]. }
  rewrite Hkeep.
  destruct dockerized' as [| |b|n|s|l|f]; try discriminate Hctor;
    rewrite Hctor; reflexivity.
Qed.

Lemma validateInput_idempotent_witness :
  validateInput
    (books_config "kafka"
       [("dockerized", JBool false); ("interval", JNum one_minute)])
  = (Ok (books_config "kafka"
           [("dockerized", JBool false); ("interval", JNum one_minute)]),
     books_config "kafka"
       [("dockerized", JBool false); ("interval", JNum one_minute)]).
Proof.
  apply (validateInput_idempotent
           (books_config "kafka" [("dockerized", JStr "yes")]) _ _ eq_refl).
Defined.

(** X3.  A returning [validateInput] fills two defaults and touches nothing
    else: [interval] is kept when it is a truthy number and is 60000
    otherwise, [dockerized] is kept when it is built by [Boolean] and is
    [false] otherwise, and every other field reads as before. *)
Theorem validateInput_defaults
    (config config' after interval dockerized : jsval) :
  validateInput config = (Ok config', after) ->
  Get config "interval" = Ok interval ->
  Get config "dockerized" = Ok dockerized ->
  Get config' "interval" =
    Ok (if ToBoolean interval && String.eqb (typeof interval) "number"
        then interval else literal "60000") /\
  Get config' "dockerized" =
    Ok (match constructor_name dockerized with
        | Ok name =>
            if strict_eq_string name "Boolean" then dockerized else JBool false
        | Throw _ => JBool false
        end) /\
  forall k, k <> "interval" -> k <> "dockerized" -> Get config' k = Get config k.
Proof.
  intros (i & d & d' & Hchecks & _ & Hframe & Hi & Hd & Hctor & Hkeep)%validateInput_returned
         Hinterval Hdockerized.
  apply validateInput_checks_spec in Hchecks as (_ & Hi0 & Hd0).
  rewrite Hinterval in Hi0. injection Hi0 as <-.
  rewrite Hdockerized in Hd0. injection Hd0 as <-.
  split; [|split; [|exact Hframe]].
  - rewrite Hi. unfold type_is_not.
    destruct (ToBoolean interval), (String.eqb (typeof interval) "number");
      reflexivity.
  - rewrite Hd. destruct Hkeep as [-> | [-> Hnot]].
    + now rewrite Hctor.
    + destruct (constructor_name dockerized) as [name|]; [|reflexivity].
      destruct (strict_eq_string name "Boolean") eqn:E; [|reflexivity].
      apply strict_eq_string_spec in E as ->. now destruct Hnot.
Qed.

Lemma validateInput_defaults_witness :
  Get (books_config "kafka"
         [("interval", literal "60000"); ("dockerized", JBool false)])
      "interval"
  = Ok (literal "60000").
Proof.
  apply (validateInput_defaults
           (books_config "kafka" [("interval", JStr "5000")])
           (books_config "kafka"
              [("interval", literal "60000"); ("dockerized", JBool false)])
           _ (JStr "5000") JUndefined eq_refl eq_refl eq_refl).
Defined.

(** X4.  How validation and pipeline selection compose: on a configuration
    that [validateInput] returned, [getMetricsURI] answers with [jmxuri] (a
    string, or a falsy value such as [undefined] when none was given) in
    [kafka] mode, with the query address of the Prometheus service in
    [kubernetes] mode, and throws [Error('Unrecognized mode')] in
    [microservices] mode, which validation accepts. *)
Theorem validated_mode_selects_pipeline (config config' after : jsval) :
  validateInput config = (Ok config', after) ->
  exists mode,
    Get config' "mode" = Ok (JStr mode) /\
    (mode = "kafka" /\
     (exists jmxuri, getMetricsURI config' = Ok jmxuri /\
                     Get config' "jmxuri" = Ok jmxuri /\
                     (ToBoolean jmxuri = false \/ exists s, jmxuri = JStr s))
     \/
     mode = "kubernetes" /\
     (exists service port,
         Get config' "promService" = Ok (JStr service) /\
         Get config' "promPort" = Ok (JNum port) /\
         getMetricsURI config' =
           Ok (JStr ("http://" ++ service ++ ":" ++ Number_toString port ++
                     "/api/v1/query?query=")))
     \/
     mode = "microservices" /\
     getMetricsURI config' = Throw (Error "Unrecognized mode")).
Proof.
  intros (interval & dockerized & dockerized' & Hchecks & _ & Hframe & _)%validateInput_returned.
  apply validateInput_checks_spec in Hchecks as (Hvalid & _ & _).
  apply (valid_config_frame config config' Hframe) in Hvalid
    as (_ & _ & mode & Hmode & Hin & Hkafka & Hkube).
  exists mode. split; [exact Hmode|].
  unfold getMetricsURI. rewrite Hmode. cbn [rbind].
  cbn in Hin. destruct Hin as [<- | [<- | [<- | []]]].
  - left. split; [reflexivity|].
    destruct (Hkafka eq_refl) as (jmxuri & Hj & Hshape).
    exists jmxuri. now repeat split.
  - right; left. split; [reflexivity|].
    destruct (Hkube eq_refl) as (service & port & Hs & _ & Hp & _).
    exists service, port. rewrite Hs, Hp. now repeat split.
  - right; right. now split.
Qed.

Lemma validated_mode_selects_pipeline_witness :
  exists mode,
    Get (books_config "microservices"
           [("interval", JNum one_minute); ("dockerized", JBool false)])
        "mode" = Ok (JStr mode).
Proof.
  destruct (validated_mode_selects_pipeline
              (books_config "microservices" []) _ _ eq_refl)
    as (mode & Hmode & _).
  exists mode. exact Hmode.
Defined.

Example microservices_mode_is_validated_then_refused :
  fst (validateInput (books_config "microservices" []))
  = Ok (books_config "microservices"
          [("interval", literal "60000"); ("dockerized", JBool false)])
  /\
  getMetricsURI
    (books_config "microservices"
       [("interval", literal "60000"); ("dockerized", JBool false)])
  = Throw (Error "Unrecognized mode").
Proof. split; reflexivity. Qed.

(** X5.  A configuration with a valid [microservice] and no [database] (or
    a [null] one) makes [validateInput] throw a [TypeError], not one of its
    own messages, and leaves the configuration untouched. *)
Theorem missing_database_is_a_TypeError (config database : jsval) (name : string) :
  Get config "microservice" = Ok (JStr name) ->
  name <> EmptyString ->
  Get config "database" = Ok database ->
  database = JUndefined \/ database = JNull ->
  validateInput config = (Throw TypeError, config).
Proof.
  intros Hms Hname Hdb Hmissing.
  destruct (Get_defined _ _ _ Hms) as [fields ->]; [discriminate|].
  unfold validateInput, validateInput_checks.
  rewrite Hms, Hdb. cbn [Get rbind].
  rewrite (proj2 (truthy_string_spec (JStr name))) by now exists name.
  cbn [throw_when rbind]. now destruct Hmissing as [-> | ->].
Qed.

Lemma missing_database_is_a_TypeError_witness :
  validateInput (JObj [("microservice", JStr "books"); ("mode", JStr "kafka")])
  = (Throw TypeError,
     JObj [("microservice", JStr "books"); ("mode", JStr "kafka")]).
Proof.
  apply (missing_database_is_a_TypeError
           (JObj [("microservice", JStr "books"); ("mode", JStr "kafka")])
           JUndefined "books");
    [reflexivity | discriminate | reflexivity | now left].
Defined.




(** X21.  [validateInput] refuses no valid configuration: a configuration
    that passes every check is returned, provided the [constructor.name] of
    its [dockerized] can be read (it cannot for [null] and for an object
    whose own [constructor] field is [null] or [undefined]). *)
Theorem valid_config_is_accepted (config dockerized : jsval) :
  valid_config config ->
  Get config "dockerized" = Ok dockerized ->
  dockerized = JUndefined \/ (exists name, constructor_name dockerized = Ok name) ->
  exists config', validateInput config = (Ok config', config').
Proof.
  intros Hvalid Hd Hreadable.
  assert (Hi : exists interval, Get config "interval" = Ok interval).
  { destruct config; try discriminate Hd; now eexists. }
  destruct Hi as [interval Hi].
  assert (Hchecks : validateInput_checks config = Ok (interval, dockerized)).
  { apply validateInput_checks_spec. split; [exact Hvalid | now split]. }
  unfold validateInput. rewrite Hchecks.
  destruct Hreadable as [-> | [name Hname]]; [now eexists|].
  destruct dockerized; try discriminate Hname; rewrite Hname;
    destruct (negb (strict_eq_string name "Boolean")); now eexists.
Qed.

Lemma valid_config_is_accepted_witness :
  exists config',
    validateInput
      (books_config "kubernetes"
         [("promService", JStr "prometheus"); ("promPort", literal "9090");
          ("dockerized", JBool true)])
    = (Ok config', config').
Proof.
  apply (valid_config_is_accepted
           (books_config "kubernetes"
              [("promService", JStr "prometheus"); ("promPort", literal "9090");
               ("dockerized", JBool true)])
           (JBool true)).
  - apply (validateInput_checks_spec
             (books_config "kubernetes"
                [("promService", JStr "prometheus"); ("promPort", literal "9090");
                 ("dockerized", JBool true)])
             JUndefined (JBool true)).
    reflexivity.
  - reflexivity.
  - right. now eexists.
Defined.

(** ** [addNotifications] *)

Lemma addNotifications_body_ok config obj config' :
  addNotifications_body config obj = Ok config' ->
  exists type settings,
    Get obj "type" = Ok (JStr type) /\ In type features /\
    Get obj "settings" = Ok settings /\
    config' = SetProp config type settings.
Proof.
  unfold addNotifications_body.
  destruct (Get obj "type") as [ty|] eqn:Hty; cbn [rbind]; [|discriminate].
  destruct (includes features ty) eqn:Hin; cbn [negb].
  2:{ destruct (ToString ty); discriminate. }
  apply includes_spec in Hin as (type & -> & Hin).
  destruct (Get obj "settings") as [settings|]; cbn [rbind ToString]; [|discriminate].
  intros [= <-]. now exists type, settings.
Qed.

Lemma addNotifications_body_supported config obj :
  supported obj ->
  exists type settings,
    Get obj "type" = Ok (JStr type) /\
    Get obj "settings" = Ok settings /\
    addNotifications_body config obj = Ok (SetProp config type settings).
Proof.
  intros (type & Hty & Hin).
  destruct (Get_defined _ _ _ Hty) as [fields ->]; [discriminate|].
  unfold addNotifications_body. rewrite Hty. cbn [rbind].
  rewrite (proj2 (includes_spec features (JStr type))) by now exists type.
  cbn [negb Get rbind ToString]. now eexists _, _.
Qed.

(** What the loop leaves in the object: under every key, the settings of
    the last notification of that type, or what was there before. *)
Lemma addNotifications_loop_returned elements : forall fields config' after,
  addNotifications_loop elements (JObj fields) = (Ok config', after) ->
  after = config' /\
  forall k, Get config' k =
            match last_settings k elements with
            | Some settings => Ok settings
            | None => Get (JObj fields) k
            end.
Proof.
  induction elements as [|obj elements IH]; intros fields config' after;
    cbn [addNotifications_loop last_settings].
  - intros [= <- <-]. now split.
  - destruct (addNotifications_body (JObj fields) obj) as [config1|] eqn:Hbody;
      [|discriminate].
    apply addNotifications_body_ok in Hbody
      as (type & settings & Hty & _ & Hsettings & ->).
    cbn [SetProp]. intros [-> Hget]%IH. split; [reflexivity|].
    intros k. rewrite Hget.
    destruct (last_settings k elements); [reflexivity|].
    rewrite Hty, Hsettings. cbn [strict_eq_string].
    destruct (String.eqb_spec type k) as [-> | Hne].
    + apply Get_SetProp_eq.
    + change (JObj (set_field type settings fields))
        with (SetProp (JObj fields) type settings).
      now apply Get_SetProp_ne.
Qed.

Lemma last_settings_type k elements settings :
  last_settings k elements = Some settings ->
  exists obj, In obj elements /\ Get obj "type" = Ok (JStr k).
Proof.
  revert settings.
  induction elements as [|obj elements IH]; intros settings;
    cbn [last_settings]; [discriminate|].
  destruct (last_settings k elements) as [s|].
  - intros _. destruct (IH s eq_refl) as (o & Ho & Hty).
    exists o. split; [now right | exact Hty].
  - destruct (Get obj "type") as [t|] eqn:Hty; [|discriminate].
    destruct (Get obj "settings"); [|discriminate].
    destruct (strict_eq_string t k) eqn:E; [|discriminate].
    apply strict_eq_string_spec in E as ->. intros _.
    exists obj. split; [now left | exact Hty].
Qed.

Lemma addNotifications_loop_supported elements : forall fields,
  addNotifications_loop elements (JObj fields) =
    (Ok (snd (addNotifications_loop elements (JObj fields))),
     snd (addNotifications_loop elements (JObj fields))) ->
  Forall supported elements.
Proof.
  induction elements as [|obj elements IH]; intros fields;
    cbn [addNotifications_loop]; [constructor|].
  destruct (addNotifications_body (JObj fields) obj) as [config1|] eqn:Hbody;
    [|discriminate].
  apply addNotifications_body_ok in Hbody as (type & settings & Hty & Hin & _ & ->).
  intros H. constructor; [now exists type | now apply (IH _ H)].
Qed.

(** X7.  When [addNotifications] returns, it returns the object it was
    given, in which every key that is the type of a notification holds the
    settings of the last notification of that type; every other key reads
    as before, in particular every key other than [slack], [email] and
    [sms]. *)
Theorem addNotifications_installs_last_settings
    (config config' after : jsval) (elements : list jsval) :
  Get config "notifications" = Ok (JArr elements) ->
  addNotifications config = (Ok config', after) ->
  after = config' /\
  Forall supported elements /\
  (forall k, Get config' k =
             match last_settings k elements with
             | Some settings => Ok settings
             | None => Get config k
             end) /\
  (forall k, ~ In k features -> Get config' k = Get config k).
Proof.
  intros Hn. destruct (Get_defined _ _ _ Hn) as [fields ->]; [discriminate|].
  unfold addNotifications. rewrite Hn. cbn [ToBoolean].
  intros Hloop.
  assert (Hsupported : Forall supported elements).
  { apply (addNotifications_loop_supported elements fields).
    rewrite Hloop. cbn [snd]. f_equal.
    now apply addNotifications_loop_returned in Hloop as [-> _]. }
  apply addNotifications_loop_returned in Hloop as [-> Hget].
  repeat split; try assumption.
  intros k Hk. rewrite Hget.
  destruct (last_settings k elements) as [settings|] eqn:Hlast; [|reflexivity].
  apply last_settings_type in Hlast as (obj & Hobj & Hty).
  rewrite Forall_forall in Hsupported.
  destruct (Hsupported obj) as (type & Hty' & Hin).
  { now apply list_elem_of_In. }
  rewrite Hty in Hty'. injection Hty' as ->. now destruct Hk.
Qed.

Lemma addNotifications_installs_last_settings_witness :
  Get (JObj [("notifications",
              JArr [notification "slack" (JStr "hook-1");
                    notification "email" (JStr "ops@example.org");
                    notification "slack" (JStr "hook-2")]);
             ("slack", JStr "hook-2"); ("email", JStr "ops@example.org")])
      "slack"
  = Ok (JStr "hook-2").
Proof.
  apply (addNotifications_installs_last_settings
           (JObj [("notifications",
                   JArr [notification "slack" (JStr "hook-1");
                         notification "email" (JStr "ops@example.org");
                         notification "slack" (JStr "hook-2")])])
           (JObj [("notifications",
                   JArr [notification "slack" (JStr "hook-1");
                         notification "email" (JStr "ops@example.org");
                         notification "slack" (JStr "hook-2")]);
                  ("slack", JStr "hook-2"); ("email", JStr "ops@example.org")])
           _
           [notification "slack" (JStr "hook-1");
            notification "email" (JStr "ops@example.org");
            notification "slack" (JStr "hook-2")]
           eq_refl eq_refl).
Defined.

Lemma addNotifications_loop_prefix before : forall fields rest,
  Forall supported before ->
  exists fields1,
    addNotifications_loop before (JObj fields) =
      (Ok (JObj fields1), JObj fields1) /\
    addNotifications_loop (before ++ rest)%list (JObj fields) =
      addNotifications_loop rest (JObj fields1).
Proof.
  induction before as [|obj before IH]; intros fields rest Hsupported.
  - exists fields. now split.
  - apply Forall_cons in Hsupported as [Hobj Hbefore].
    destruct (addNotifications_body_supported (JObj fields) obj Hobj)
      as (type & settings & _ & _ & Hbody).
    cbn [addNotifications_loop app]. rewrite Hbody. cbn [SetProp].
    apply IH, Hbefore.
Qed.

(** X8.  A notification of an unsupported type makes [addNotifications]
    throw [Error('<type> is not a supported notification method for
    Chronos')]; the notifications listed before it stay installed in the
    configuration object although the call fails, and those after it are
    not looked at. *)
Theorem unsupported_notification_throws
    (config : jsval) (before rest : list jsval) (obj type : jsval)
    (text : string) :
  Get config "notifications" = Ok (JArr (before ++ obj :: rest)) ->
  Forall supported before ->
  Get obj "type" = Ok type ->
  includes features type = false ->
  ToString type = Ok text ->
  exists after,
    addNotifications config =
      (Throw (Error (text ++ " is not a supported notification method for Chronos")),
       after) /\
    forall k, Get after k =
              match last_settings k before with
              | Some settings => Ok settings
              | None => Get config k
              end.
Proof.
  intros Hn Hbefore Hty Hin Htext.
  destruct (Get_defined _ _ _ Hn) as [fields ->]; [discriminate|].
  destruct (addNotifications_loop_prefix before fields (obj :: rest) Hbefore)
    as (fields1 & Hloop & Happ).
  exists (JObj fields1). split.
  - unfold addNotifications. rewrite Hn. cbn [ToBoolean]. rewrite Happ.
    cbn [addNotifications_loop]. unfold addNotifications_body.
    rewrite Hty. cbn [rbind]. rewrite Hin. cbn [negb].
    rewrite Htext. reflexivity.
  - now apply addNotifications_loop_returned in Hloop as [_ Hget].
Qed.

Lemma unsupported_notification_throws_witness :
  exists after,
    addNotifications
      (JObj [("notifications",
              JArr ([notification "slack" (JStr "hook-1")] ++
                    notification "pager" (JStr "112") ::
                    [notification "email" (JStr "ops@example.org")]))])
    = (Throw (Error ("pager" ++ " is not a supported notification method for Chronos")),
       after) /\
    forall k, Get after k =
              match last_settings k [notification "slack" (JStr "hook-1")] with
              | Some settings => Ok settings
              | None =>
                  Get (JObj [("notifications",
                              JArr ([notification "slack" (JStr "hook-1")] ++
                                    notification "pager" (JStr "112") ::
                                    [notification "email" (JStr "ops@example.org")]))])
                      k
              end.
Proof.
  apply (unsupported_notification_throws
           (JObj [("notifications",
                   JArr ([notification "slack" (JStr "hook-1")] ++
                         notification "pager" (JStr "112") ::
                         [notification "email" (JStr "ops@example.org")]))])
           [notification "slack" (JStr "hook-1")]
           [notification "email" (JStr "ops@example.org")]
           (notification "pager" (JStr "112")) (JStr "pager") "pager");
    try reflexivity.
  repeat constructor. exists "slack". split; [reflexivity | now left].
Defined.

(** X9.  [addNotifications] leaves a configuration without notifications
    (absent, or any falsy value) as it is, and throws a [TypeError] when
    [notifications] is truthy but not an array, a single notification
    object for instance. *)
Theorem notifications_must_be_an_array (config notifications : jsval) :
  Get config "notifications" = Ok notifications ->
  (ToBoolean notifications = false ->
   addNotifications config = (Ok config, config)) /\
  (ToBoolean notifications = true ->
   (forall elements, notifications <> JArr elements) ->
   addNotifications config = (Throw TypeError, config)).
Proof.
  intros Hn. unfold addNotifications. rewrite Hn. split.
  - now intros ->.
  - intros -> Hshape.
    destruct notifications; try reflexivity. now destruct (Hshape elements).
Qed.

Lemma notifications_must_be_an_array_witness :
  addNotifications
    (JObj [("notifications", notification "slack" (JStr "hook-1"))])
  = (Throw TypeError,
     JObj [("notifications", notification "slack" (JStr "hook-1"))]).
Proof.
  apply (proj2 (notifications_must_be_an_array
                  (JObj [("notifications", notification "slack" (JStr "hook-1"))])
                  (notification "slack" (JStr "hook-1")) eq_refl));
    [reflexivity | discriminate].
Defined.

(** ** [testMetricsQuery] *)





Example testMetricsQuery_returns_any_status :
  testMetricsQuery kubernetes_config
    (answering (JStr "Service Unavailable") sample_world)
  = (inl (JObj [("status", literal "200"); ("data", JStr "Service Unavailable")]),
     [ProbeLog "Successful initial response from metrics server:"
        (JStr "http://prometheus:9090/api/v1/query?query=up")]).
Proof. vm_compute. reflexivity. Qed.

(** ** More on text mode *)

Lemma body_by_survives mode t st element :
  extractWord_body mode t st element =
    if survives mode element then extractWord_parse t st element else st.
Proof.
  unfold extractWord_body, survives.
  destruct element as [|c rest]; [reflexivity|].
  cbn [String.eqb negb andb].
  destruct (Ascii.eqb c "#"); [reflexivity|]. cbn [negb andb].
  now destruct (strict_eq_string mode "kafka" && _).
Qed.

(** One line: one record or one diagnostic when it survives, nothing
    otherwise. *)
Lemma extractWord_body_counts mode t res w element :
  exists more logged,
    extractWord_body mode t (res, w) element =
      ((res ++ more)%list,
       {| clock := clock w; ticks := ticks w;
          console := (console w ++ logged)%list; axios_get := axios_get w |}) /\
    (List.length more + List.length logged)%nat =
      (if survives mode element then 1 else 0)%nat.
Proof.
  rewrite body_by_survives. destruct (survives mode element).
  - unfold extractWord_parse.
    destruct (negb (is_NaN (StringToNumber _))).
    + eexists [_], []. rewrite app_nil_r. destruct w. now split.
    + exists [], [InvalidMetric element]. rewrite app_nil_r. now split.
  - exists [], []. rewrite !app_nil_r. destruct w. now split.
Qed.

Lemma extractWord_loop_counts mode t arr : forall res w,
  exists more logged,
    fold_left (extractWord_body mode t) arr (res, w) =
      ((res ++ more)%list,
       {| clock := clock w; ticks := ticks w;
          console := (console w ++ logged)%list; axios_get := axios_get w |}) /\
    (List.length more + List.length logged)%nat =
      List.length (List.filter (survives mode) arr).
Proof.
  induction arr as [|element arr IH]; intros res w; cbn [fold_left List.filter].
  - exists [], []. rewrite !app_nil_r. destruct w. now split.
  - destruct (extractWord_body_counts mode t res w element)
      as (more1 & logged1 & -> & Hcount1).
    destruct (IH (res ++ more1)%list
                {| clock := clock w; ticks := ticks w;
                   console := (console w ++ logged1)%list;
                   axios_get := axios_get w |})
      as (more2 & logged2 & -> & Hcount2).
    exists (more1 ++ more2)%list, (logged1 ++ logged2)%list.
    cbn [clock ticks console axios_get]. rewrite !app_assoc.
    split; [reflexivity|].
    rewrite !length_app.
    destruct (survives mode element); cbn [List.length]; lia.
Qed.

(** X11.  In text mode every surviving line is accounted for: the number
    of records returned plus the number of diagnostics written equals the
    number of lines that are neither blank, nor comments, nor suppressed by
    their prefix; what was on the console before stays there. *)
Theorem surviving_lines_are_accounted_for (mode : jsval) (s : string) (w : World) :
  exists res w' logged,
    extractWord mode (JStr s) w = (Ok res, w') /\
    console w' = (console w ++ logged)%list /\
    (List.length res + List.length logged)%nat =
      List.length (List.filter (survives mode) (split_newline s)).
Proof.
  unfold extractWord. cbn [Date_now].
  match goal with |- context [fold_left ?f ?l (?r, ?w1)] =>
    destruct (extractWord_loop_counts mode (clock w (ticks w)) l r w1)
      as (more & logged & -> & Hcount)
  end.
  eexists _, _, logged. split; [reflexivity|]. split; [reflexivity | exact Hcount].
Qed.

Lemma split_newline_not_nil s : split_newline s <> [].
Proof.
  destruct s as [|c s]; cbn [split_newline]; [discriminate|].
  destruct (Ascii.eqb c newline); [discriminate|].
  destruct (split_newline s); discriminate.
Qed.

Lemma split_newline_app p1 p2 :
  split_newline (p1 ++ String newline p2) =
    (split_newline p1 ++ split_newline p2)%list.
Proof.
  induction p1 as [|c p1 IH].
  - change (EmptyString ++ String newline p2) with (String newline p2).
    cbn [split_newline]. now rewrite Ascii.eqb_refl.
  - change (String c p1 ++ String newline p2)
      with (String c (p1 ++ String newline p2)).
    cbn [split_newline]. rewrite IH.
    destruct (Ascii.eqb c newline); [reflexivity|].
    pose proof (split_newline_not_nil p1) as Hne.
    destruct (split_newline p1) as [|first others]; [now destruct Hne | reflexivity].
Qed.

(** The records a line adds do not depend on what was pushed or logged
    before. *)
Lemma extractWord_body_records mode t res w w0 element :
  fst (extractWord_body mode t (res, w) element) =
    (res ++ fst (extractWord_body mode t ([], w0) element))%list.
Proof.
  rewrite !body_by_survives. destruct (survives mode element).
  - unfold extractWord_parse.
    destruct (negb (is_NaN (StringToNumber _))); cbn [fst];
      [reflexivity | now rewrite app_nil_r].
  - cbn [fst]. now rewrite app_nil_r.
Qed.

Lemma extractWord_loop_records mode t arr : forall res w w0,
  fst (fold_left (extractWord_body mode t) arr (res, w)) =
    (res ++ fst (fold_left (extractWord_body mode t) arr ([], w0)))%list.
Proof.
  induction arr as [|element arr IH]; intros res w w0; cbn [fold_left].
  - cbn [fst]. now rewrite app_nil_r.
  - pose proof (extractWord_body_records mode t res w w0 element) as Hbody.
    destruct (extractWord_body mode t (res, w) element) as [res1 w1].
    destruct (extractWord_body mode t ([], w0) element) as [res0 w0'].
    cbn [fst] in Hbody. subst res1.
    rewrite (IH (res ++ res0)%list w1 w0), (IH res0 w0' w0).
    now rewrite app_assoc.
Qed.

(** X12.  Text mode does not look across lines: the batch of two payloads
    joined by a newline is the batch of the first followed by the batch of
    the second, so nothing is deduplicated and order is the order of the
    lines. *)
Theorem extractWord_concatenates (mode : jsval) (p1 p2 : string) (w : World) :
  exists b1 b2,
    fst (extractWord mode (JStr p1) w) = Ok b1 /\
    fst (extractWord mode (JStr p2) w) = Ok b2 /\
    fst (extractWord mode (JStr (p1 ++ String newline p2)) w) = Ok (b1 ++ b2)%list.
Proof.
  unfold extractWord. cbn [Date_now]. rewrite split_newline_app, fold_left_app.
  set (t := clock w (ticks w)).
  set (w1 := {| clock := clock w; ticks := S (ticks w);
                console := console w; axios_get := axios_get w |}).
  pose proof (fun res w' =>
    extractWord_loop_records mode t (split_newline p2) res w' w1) as Hsecond.
  destruct (fold_left (extractWord_body mode t) (split_newline p1) ([], w1))
    as [b1 w2].
  specialize (Hsecond b1 w2).
  destruct (fold_left (extractWord_body mode t) (split_newline p2) (b1, w2))
    as [b12 w3].
  destruct (fold_left (extractWord_body mode t) (split_newline p2) ([], w1))
    as [b2 w4].
  cbn [fst] in *. exists b1, b2. now subst b12.
Qed.

(** X13.  The mode matters to [extractWord] only through the test
    [mode === 'kafka']: any two modes other than ['kafka'] give the same
    batch and the same diagnostics. *)
Theorem extractWord_modes_other_than_kafka (mode1 mode2 text : jsval) (w : World) :
  mode1 <> JStr "kafka" ->
  mode2 <> JStr "kafka" ->
  extractWord mode1 text w = extractWord mode2 text w.
Proof.
  intros H1 H2. unfold extractWord. destruct text; try reflexivity.
  cbn [Date_now].
  assert (Hloop : forall arr st,
            fold_left (extractWord_body mode1 (clock w (ticks w))) arr st =
            fold_left (extractWord_body mode2 (clock w (ticks w))) arr st).
  { induction arr as [|element arr IH]; intros st; cbn [fold_left]; [reflexivity|].
    rewrite IH. f_equal. rewrite !body_by_survives. unfold survives.
    now rewrite !strict_eq_string_false. }
  now rewrite Hloop.
Qed.

Lemma extractWord_modes_other_than_kafka_witness :
  extractWord (JStr "kubernetes") (JStr "jmx_scrape_duration_seconds 0.01")
    sample_world
  = extractWord (JStr "microservices") (JStr "jmx_scrape_duration_seconds 0.01")
      sample_world.
Proof.
  apply (extractWord_modes_other_than_kafka (JStr "kubernetes")
           (JStr "microservices")); discriminate.
Defined.

(** ** More on structured mode *)

(** X14.  One entry whose labels cannot be read (no [metric] object, for
    instance) makes [parseProm] throw, wherever it stands in the payload:
    the records of the entries before it are lost with it. *)
Theorem malformed_entry_aborts_the_batch
    (before after : list jsval) (info : jsval) (e0 : exn) (w : World) :
  labels_of info = Throw e0 ->
  exists e, fst (parseProm (JArr (before ++ info :: after)) w) = Throw e.
Proof.
  intros Hlabels. rewrite parseProm_entries. cbn [fst].
  rewrite parseProm_loop_app.
  destruct (parseProm_loop _ before _) as [[res names]|e1]; cbn [rbind].
  - cbn [parseProm_loop]. rewrite parseProm_body_unfold, Hlabels.
    cbn [rbind]. now exists e0.
  - now exists e1.
Qed.

Lemma malformed_entry_aborts_the_batch_witness :
  exists e,
    fst (parseProm
           (JArr ([requests_total [] (sample "7")] ++
                  JObj [("value", sample "1")] ::
                  [entry "db" "10.0.0.2:9100" "up" [] (sample "1")]))
           sample_world)
    = Throw e.
Proof.
  apply (malformed_entry_aborts_the_batch
           [requests_total [] (sample "7")]
           [entry "db" "10.0.0.2:9100" "up" [] (sample "1")]
           (JObj [("value", sample "1")]) TypeError sample_world).
  reflexivity.
Defined.

Section ParsePromRecords.

Variable t : Z.

(** Every record the loop adds comes from an entry that qualifies for it. *)
Lemma parseProm_loop_sound entries : forall st st' r,
  parseProm_loop t entries st = Ok st' ->
  In r (fst st') ->
  In r (fst st) \/
  exists info, In info entries /\ retained info (metric r) (value r) /\
               time r = t /\ category r = "Event".
Proof.
  induction entries as [|info entries IH]; intros [res names] st' r;
    cbn [parseProm_loop].
  - intros [= <-] Hr. now left.
  - destruct (parseProm_body t (res, names) info) as [[res1 names1]|] eqn:Hbody;
      cbn [rbind]; [|discriminate].
    intros Hloop Hr.
    destruct (IH _ _ _ Hloop Hr) as [Hin | (info' & Hin' & Hrest)].
    2:{ right. exists info'. split; [now right | exact Hrest]. }
    cbn [fst] in *. apply parseProm_body_turn in Hbody.
    inversion Hbody; subst; try (now left).
    apply in_app_or in Hin as [Hin | [<- | []]]; [now left|].
    right. exists info. split; [now left|].
    split; [|now split]. exists labels. now repeat split.
Qed.

Lemma parseProm_loop_length entries : forall st st',
  parseProm_loop t entries st = Ok st' ->
  (List.length (fst st') <= List.length (fst st) + List.length entries)%nat.
Proof.
  induction entries as [|info entries IH]; intros [res names] st';
    cbn [parseProm_loop].
  - intros [= <-]. cbn [fst List.length]. lia.
  - destruct (parseProm_body t (res, names) info) as [[res1 names1]|] eqn:Hbody;
      cbn [rbind]; [|discriminate].
    intros Hloop%IH. apply parseProm_body_turn in Hbody.
    cbn [fst List.length] in *.
    inversion Hbody; subst; rewrite ?length_app in Hloop;
      cbn [List.length] in Hloop; lia.
Qed.

(** Entries that all qualify, under names that are all different and not
    yet seen, are all retained, in order. *)
Lemma parseProm_loop_complete entries : forall named res names,
  Forall2 (fun info nv => retained info (fst nv) (snd nv)) entries named ->
  NoDup (map fst named) ->
  (forall name, In name (map fst named) -> name ∉ names) ->
  exists names',
    parseProm_loop t entries (res, names) =
      Ok ((res ++ map (fun nv => record_of (fst nv) (snd nv) t) named)%list,
          names').
Proof.
  induction entries as [|info entries IH]; intros named res names Hall Hnodup Hfresh.
  - apply Forall2_nil_inv_l in Hall as ->.
    exists names. cbn [parseProm_loop map]. now rewrite app_nil_r.
  - apply Forall2_cons_inv_l in Hall as ([name v] & named' & Hinfo & Hall & ->).
    cbn [map fst snd] in *.
    destruct Hinfo as (labels & Hlabels & Hjob & Hname & Hv & Hok).
    apply NoDup_cons in Hnodup as [Hnotin Hnodup].
    cbn [parseProm_loop].
    rewrite parseProm_body_unfold, Hlabels. cbn [rbind].
    rewrite Hjob. cbn [negb]. rewrite Hname. cbn [rbind].
    rewrite bool_decide_eq_false_2 by (apply Hfresh; now left).
    rewrite Hv. cbn [rbind]. rewrite Hok. cbn [rbind].
    destruct (IH named' (res ++ [record_of name v t])%list (names ∪ {[ name ]})
                Hall Hnodup) as [names' Hloop].
    { intros name' Hin. apply not_elem_of_union. split.
      - apply Hfresh. now right.
      - intros ->%elem_of_singleton. apply Hnotin. now apply list_elem_of_In. }
    exists names'. rewrite Hloop. now rewrite <- app_assoc.
Qed.

(** The loop body reads an entry only through its labels and its candidate
    value. *)
Lemma parseProm_body_reads st info info' :
  labels_of info = labels_of info' ->
  candidate info = candidate info' ->
  parseProm_body t st info = parseProm_body t st info'.
Proof.
  intros Hlabels Hv. destruct st as [res names].
  now rewrite !parseProm_body_unfold, Hlabels, Hv.
Qed.

Lemma parseProm_loop_reads entries : forall entries' st,
  Forall2 (fun info info' => labels_of info = labels_of info' /\
                             candidate info = candidate info')
          entries entries' ->
  parseProm_loop t entries st = parseProm_loop t entries' st.
Proof.
  induction entries as [|info entries IH]; intros entries' st Hall.
  - now apply Forall2_nil_inv_l in Hall as ->.
  - apply Forall2_cons_inv_l in Hall as (info' & rest & [Hl Hv] & Hall & ->).
    cbn [parseProm_loop]. rewrite (parseProm_body_reads st info info' Hl Hv).
    destruct (parseProm_body t st info'); cbn [rbind]; [now apply IH | reflexivity].
Qed.

End ParsePromRecords.

(** X15.  [parseProm] invents nothing: every record of a returned batch
    comes from an entry of the payload whose [job] is truthy, whose
    identity is the record's [metric] and whose candidate value is the
    record's [value], unchanged; its [category] is ['Event'], and the batch
    has at most as many records as the payload has entries. *)
Theorem parseProm_records_come_from_entries
    (data : jsval) (w : World) (res : list MetricRecord) (w' : World) :
  parseProm data w = (Ok res, w') ->
  exists entries,
    iterate data = Ok entries /\
    (List.length res <= List.length entries)%nat /\
    forall r, In r res ->
      exists info, In info entries /\ retained info (metric r) (value r) /\
                   category r = "Event".
Proof.
  intros (entries & names & Hdata & Hloop & _)%parseProm_returned.
  exists entries. split; [exact Hdata|]. split.
  - apply parseProm_loop_length in Hloop. cbn [fst List.length] in Hloop. lia.
  - intros r Hr.
    destruct (parseProm_loop_sound _ _ _ _ r Hloop Hr)
      as [[] | (info & Hin & Hretained & _ & Hcategory)].
    now exists info.
Qed.

Lemma parseProm_records_come_from_entries_witness :
  exists entries,
    iterate (JArr [requests_total [] (sample "7")]) = Ok entries /\
    (List.length
       [record_of "api/10.0.0.1:9090/http_requests_total" (JStr "7") 1700000000000]
     <= List.length entries)%nat /\
    forall r,
      In r [record_of "api/10.0.0.1:9090/http_requests_total" (JStr "7")
              1700000000000] ->
      exists info, In info entries /\ retained info (metric r) (value r) /\
                   category r = "Event".
Proof.
  apply (parseProm_records_come_from_entries
           (JArr [requests_total [] (sample "7")]) sample_world _
           (snd (Date_now sample_world))).
  reflexivity.
Defined.

(** X16.  Nothing is lost without a reason: when every entry of the payload
    qualifies for a record and the identities are all different,
    [parseProm] returns exactly one record per entry, in the order of the
    payload. *)
Theorem distinct_valid_entries_are_all_retained
    (entries : list jsval) (named : list (string * jsval)) (w : World) :
  Forall2 (fun info nv => retained info (fst nv) (snd nv)) entries named ->
  NoDup (map fst named) ->
  fst (parseProm (JArr entries) w) =
    Ok (map (fun nv => record_of (fst nv) (snd nv) (clock w (ticks w))) named).
Proof.
  intros Hall Hnodup. rewrite parseProm_entries. cbn [fst].
  destruct (parseProm_loop_complete (clock w (ticks w)) entries named [] ∅
              Hall Hnodup) as [names' ->].
  - intros name _. apply not_elem_of_empty.
  - reflexivity.
Qed.

Lemma distinct_valid_entries_are_all_retained_witness :
  fst (parseProm
         (JArr [requests_total [] (sample "7");
                entry "db" "10.0.0.2:9100" "up" [] (sample "1")])
         sample_world)
  = Ok (map (fun nv => record_of (fst nv) (snd nv)
                         (clock sample_world (ticks sample_world)))
          [("api/10.0.0.1:9090/http_requests_total", JStr "7");
           ("db/10.0.0.2:9100/up", JStr "1")]).
Proof.
  apply (distinct_valid_entries_are_all_retained
           [requests_total [] (sample "7");
            entry "db" "10.0.0.2:9100" "up" [] (sample "1")]
           [("api/10.0.0.1:9090/http_requests_total", JStr "7");
            ("db/10.0.0.2:9100/up", JStr "1")]
           sample_world).
  - repeat constructor.
    + exists (JStr "api", JStr "10.0.0.1:9090", JStr "http_requests_total").
      now repeat split.
    + exists (JStr "db", JStr "10.0.0.2:9100", JStr "up"). now repeat split.
  - apply NoDup_cons. split; [|apply NoDup_singleton].
    intros [H | []]%list_elem_of_In. discriminate H.
Defined.

(** X17.  [parseProm] reads an entry only through its three labels and its
    candidate value: two payloads whose entries agree on those give the same
    outcome, whatever other labels or fields the entries carry. *)
Theorem other_labels_are_ignored (entries entries' : list jsval) (w : World) :
  Forall2 (fun info info' => labels_of info = labels_of info' /\
                             candidate info = candidate info')
          entries entries' ->
  parseProm (JArr entries) w = parseProm (JArr entries') w.
Proof.
  intros Hall. rewrite !parseProm_entries.
  now rewrite (parseProm_loop_reads _ entries entries').
Qed.

Lemma other_labels_are_ignored_witness :
  parseProm (JArr [requests_total [("code", JStr "200")] (sample "7")]) sample_world
  = parseProm
      (JArr [requests_total [("code", JStr "500"); ("handler", JStr "/books")]
               (sample "7")])
      sample_world.
Proof.
  apply (other_labels_are_ignored
           [requests_total [("code", JStr "200")] (sample "7")]
           [requests_total [("code", JStr "500"); ("handler", JStr "/books")]
              (sample "7")]).
  repeat constructor.
Defined.

(** X18.  A string is iterable too: [parseProm] returns the empty batch on
    the empty string and throws a [TypeError] on every other string, whose
    characters have no [metric]. *)
Theorem parseProm_on_a_string (s : string) (w : World) :
  fst (parseProm (JStr s) w) =
    if String.eqb s EmptyString then Ok [] else Throw TypeError.
Proof.
  destruct s as [|c s]; reflexivity.
Qed.

(** ** The queries *)





Example promMetricsQuery_requests_the_encoded_selector :
  encodeURIComponent all_metrics
  = "%7B__name__%3D~%22.%2B%22%2Ccontainer%3D%22%22%7D".
Proof. vm_compute. reflexivity. Qed.
